(** * TensorFlow Serving (tfdf fork): request dispatcher and bundle factory

    A shallow embedding of three pieces of the repository, with the
    properties of their functions:
    - the gRPC dispatcher [PredictionServiceImpl]
      (model_servers/prediction_service_impl.cc);
    - [FillModelSpecWithNameVersionAndLabel] of the REST layer
      (http_rest_api_util.cc, which the sources carry as the second half of
      prediction_service_impl.cc);
    - [SavedModelBundleFactory] (saved_model_bundle_factory.cc, which the
      sources carry as unnamed/part_000).

    Calls that leave these files (clocks, the metrics sink, the servable
    layer, the file system, the model loaders) are effects: they are
    answered by an environment record of oracles and leave an event in a
    trace, so that what was called, how often, and with which arguments can
    be stated about the code. *)

From Stdlib Require Import ZArith Ascii String List Bool Lia.
From Stdlib Require Import DecimalString.
From stdpp Require Import base option list strings gmap.

Local Open Scope string_scope.
Local Open Scope Z_scope.

(** ** A small state monad, used for every effectful function below *)

Definition M (S A : Type) : Type := S -> A * S.

Definition ret {S A} (a : A) : M S A := fun s => (a, s).

Definition bind {S A B} (m : M S A) (k : A -> M S B) : M S B :=
  fun s => let (a, s') := m s in k a s'.

Notation "x <- c1 ;; c2" := (bind c1 (fun x => c2))
  (at level 90, c1 at level 80, right associativity).
Notation "c1 ;;; c2" := (bind c1 (fun _ => c2))
  (at level 90, right associativity).

(** ** tensorflow::Status and grpc::Status *)

Module error.
(** [tensorflow::error::Code]; [grpc::StatusCode] has the same members with
    the same numeric values. *)
Inductive Code : Type :=
| OK | CANCELLED | UNKNOWN | INVALID_ARGUMENT | DEADLINE_EXCEEDED | NOT_FOUND
| ALREADY_EXISTS | PERMISSION_DENIED | RESOURCE_EXHAUSTED | FAILED_PRECONDITION
| ABORTED | OUT_OF_RANGE | UNIMPLEMENTED | INTERNAL | UNAVAILABLE | DATA_LOSS
| UNAUTHENTICATED.
End error.

Record Status : Type := mkStatus { code : error.Code; error_message : string }.

Definition Status_OK : Status := mkStatus error.OK "".

Definition ok (s : Status) : bool :=
  match code s with error.OK => true | _ => false end.

(** [absl::StrCat] of an [int64]: its decimal digits. *)
Definition StrCat_int (z : Z) : string := NilZero.string_of_int (Z.to_int z).

Module errors.
Definition InvalidArgument (msg : string) : Status := mkStatus error.INVALID_ARGUMENT msg.
Definition Internal (msg : string) : Status := mkStatus error.INTERNAL msg.
End errors.

Module grpc.
Record Status : Type := mkStatus { error_code : error.Code; error_message : string }.
Definition ok (s : Status) : bool :=
  match error_code s with error.OK => true | _ => false end.
End grpc.

(** Modelled from the spec: [ToGRPCStatus] of grpc_status_util.cc, which is
    not among the sources.  The spec (4.1, step 5): "the mapping is 1:1 and
    lossless (message text preserved)". *)
Definition ToGRPCStatus (status : Status) : grpc.Status :=
  grpc.mkStatus (code status) (error_message status).

(** ** Machine integers *)

Definition INT64_MAX : Z := 2 ^ 63 - 1.
Definition INT64_MIN : Z := - 2 ^ 63.
(** Conversion of an integer to [intN_t]: two's complement wrap-around. *)
Definition wrap_signed (bits : Z) (z : Z) : Z :=
  (z + 2 ^ (bits - 1)) mod 2 ^ bits - 2 ^ (bits - 1).
Definition to_int32 : Z -> Z := wrap_signed 32.
Definition to_int64 : Z -> Z := wrap_signed 64.
Definition to_uint64 (z : Z) : Z := z mod 2 ^ 64.
(** C++ [/] on integers truncates toward zero. *)
Definition cdiv (a b : Z) : Z := Z.quot a b.

(** ** gRPC's time support ([grpc/support/time.h])

    The dispatcher turns the call's deadline into a timeout with three
    functions of gRPC's core support library.  The library is not part of
    this repository; the definitions below follow its time.cc.  The
    [GPR_ASSERT]s of [gpr_time_sub] and [gpr_time_add] (on the clock types
    of their operands) are not modelled; they hold at every call made here
    when a reading of a clock carries the type of that clock. *)
Module gpr.

Inductive gpr_clock_type : Type :=
| GPR_CLOCK_MONOTONIC | GPR_CLOCK_REALTIME | GPR_CLOCK_PRECISE | GPR_TIMESPAN.

#[global] Instance gpr_clock_type_eq_dec : EqDecision gpr_clock_type.
Proof. solve_decision. Defined.

Record gpr_timespec : Type := mk_timespec {
  tv_sec : Z;              (* int64_t *)
  tv_nsec : Z;             (* int32_t *)
  clock_type : gpr_clock_type
}.

Definition GPR_MS_PER_SEC : Z := 1000.
Definition GPR_NS_PER_SEC : Z := 1000000000.
Definition GPR_NS_PER_MS : Z := 1000000.

Definition gpr_inf_future (type : gpr_clock_type) : gpr_timespec :=
  mk_timespec INT64_MAX 0 type.
Definition gpr_inf_past (type : gpr_clock_type) : gpr_timespec :=
  mk_timespec INT64_MIN 0 type.

Definition gpr_time_sub (a b : gpr_timespec) : gpr_timespec :=
  let diff_clock :=
    if decide (clock_type b = GPR_TIMESPAN) then clock_type a else GPR_TIMESPAN in
  let nsec0 := to_int32 (tv_nsec a - tv_nsec b) in
  let '(nsec, dec) :=
    if nsec0 <? 0 then (to_int32 (nsec0 + GPR_NS_PER_SEC), 1) else (nsec0, 0) in
  if (tv_sec a =? INT64_MAX) || (tv_sec a =? INT64_MIN) then
    mk_timespec (tv_sec a) (tv_nsec a) diff_clock
  else if (tv_sec b =? INT64_MIN)
          || ((tv_sec b <=? 0) && (INT64_MAX + tv_sec b <=? tv_sec a)) then
    gpr_inf_future GPR_CLOCK_REALTIME
  else if (tv_sec b =? INT64_MAX)
          || ((0 <=? tv_sec b) && (tv_sec a <=? INT64_MIN + tv_sec b)) then
    gpr_inf_past GPR_CLOCK_REALTIME
  else
    mk_timespec (to_int64 (tv_sec a - tv_sec b - dec)) nsec diff_clock.

Definition gpr_time_add (a b : gpr_timespec) : gpr_timespec :=
  let nsec0 := to_int32 (tv_nsec a + tv_nsec b) in
  let '(nsec, inc) :=
    if GPR_NS_PER_SEC <=? nsec0 then (nsec0 - GPR_NS_PER_SEC, 1) else (nsec0, 0) in
  if (tv_sec a =? INT64_MAX) || (tv_sec a =? INT64_MIN) then a
  else if (tv_sec b =? INT64_MAX)
          || ((0 <=? tv_sec b) && (INT64_MAX - tv_sec b <=? tv_sec a)) then
    gpr_inf_future GPR_CLOCK_REALTIME
  else if (tv_sec b =? INT64_MIN)
          || ((tv_sec b <=? 0) && (tv_sec a <=? INT64_MIN - tv_sec b)) then
    gpr_inf_past GPR_CLOCK_REALTIME
  else
    let sec := tv_sec a + tv_sec b in
    if negb (inc =? 0) && (sec =? INT64_MAX - 1) then gpr_inf_future GPR_CLOCK_REALTIME
    else mk_timespec (sec + inc) nsec (clock_type a).

Definition gpr_time_to_millis (t : gpr_timespec) : Z :=
  if 2147483 <=? tv_sec t then
    if (tv_sec t =? 2147483) && (tv_nsec t <? 648 * GPR_NS_PER_MS) then
      2147483 * GPR_MS_PER_SEC + cdiv (tv_nsec t) GPR_NS_PER_MS
    else 2147483647
  else if tv_sec t <=? -2147483 then -2147483647
  else to_int32 (tv_sec t * GPR_MS_PER_SEC + cdiv (tv_nsec t) GPR_NS_PER_MS).

(** [gpr_now] is the clock of the process; every call of it is one
    reading.  C++ leaves the order in which the two arguments of a call are
    evaluated to the compiler; where both read the clock (the last case
    below) the readings are taken here from left to right. *)
Definition gpr_convert_clock_type {S : Type}
    (gpr_now : gpr_clock_type -> M S gpr_timespec)
    (t : gpr_timespec) (type : gpr_clock_type) : M S gpr_timespec :=
  if decide (clock_type t = type) then ret t
  else if (tv_sec t =? INT64_MAX) || (tv_sec t =? INT64_MIN) then
    ret (mk_timespec (tv_sec t) (tv_nsec t) type)
  else if decide (type = GPR_TIMESPAN) then
    now <- gpr_now (clock_type t) ;;
    ret (gpr_time_sub t now)
  else if decide (clock_type t = GPR_TIMESPAN) then
    now <- gpr_now type ;;
    ret (gpr_time_add now t)
  else
    now_there <- gpr_now type ;;
    now_here <- gpr_now (clock_type t) ;;
    ret (gpr_time_add now_there (gpr_time_sub t now_here)).

End gpr.

(** ** Protocol buffer messages: the fields the code reads or writes *)

Module ModelSpec.
(** [oneof version_choice { Int64Value version; string version_label }] *)
Inductive version_choice : Type :=
| VERSION_CHOICE_NOT_SET
| version (value : Z)
| version_label (label : string).

Record t : Type := mk {
  name : string;
  choice : version_choice;
  signature_name : string
}.

Definition set_name (n : string) (m : t) : t := mk n (choice m) (signature_name m).
(** [mutable_version()->set_value(v)] and [set_version_label(l)]: setting a
    member of the oneof replaces whichever member was set. *)
Definition set_version (v : Z) (m : t) : t := mk (name m) (version v) (signature_name m).
Definition set_version_label (l : string) (m : t) : t :=
  mk (name m) (version_label l) (signature_name m).
End ModelSpec.

Module RunOptions.
Record t : Type := mk { timeout_in_ms : Z (* int64; 0, the default, is "no timeout" *) }.
(** [tensorflow::RunOptions()] *)
Definition default : t := mk 0.
Definition set_timeout_in_ms (v : Z) (_ : t) : t := mk v.
End RunOptions.

(** ** The gRPC dispatcher: prediction_service_impl.cc *)

Module PredictionService.
Import gpr.

(** The request messages ([PredictRequest], [ClassificationRequest],
    [RegressionRequest], ...): the dispatcher reads [model_spec().name()] and
    hands the message on; [body] stands for the remaining fields. *)
Record Request : Type := mkRequest { model_spec : ModelSpec.t; body : string }.
Definition Response : Type := string.

Record ThreadPoolFactory : Type := mkThreadPoolFactory {
  GetInterOpThreadPool : nat;   (* the pools, by identity *)
  GetIntraOpThreadPool : nat
}.

Record ThreadPoolOptions : Type := mkThreadPoolOptions {
  inter_op_threadpool : option nat;
  intra_op_threadpool : option nat
}.

Record ServerContext : Type := mkServerContext { raw_deadline : gpr_timespec }.

(** What a call does to the world outside the dispatcher. *)
Inductive Event : Type :=
| Call_Predict (run_options : RunOptions.t) (request : Request)
| Call_Classify (run_options : RunOptions.t) (pools : ThreadPoolOptions) (request : Request)
| Call_Regress (run_options : RunOptions.t) (pools : ThreadPoolOptions) (request : Request)
| Call_RunMultiInferenceWithServerCore
    (run_options : RunOptions.t) (pools : ThreadPoolOptions) (request : Request)
| Call_GetModelMetadata (request : Request)
| RecordRequestLatency (model_name api entrypoint : string) (latency_usec : Z)
| RecordModelRequestCount (model_name : string) (status : Status)
| VLOG (level : Z) (msg : string).

(** The collaborators: the clocks and the servable layer behind [core_].
    The servable layer answers with a status and a response; what it does
    on its own behind the call is not part of the dispatcher's trace. *)
Record Env : Type := mkEnv {
  (* [Env::Default()->NowMicros()] (uint64), at its n-th reading *)
  NowMicros_at : nat -> Z;
  (* [gpr_now(clock)], at its n-th reading *)
  gpr_now_at : nat -> gpr_clock_type -> gpr_timespec;
  predictor_Predict : RunOptions.t -> Request -> Status * Response;
  Classify_impl : RunOptions.t -> ThreadPoolOptions -> Request -> Status * Response;
  Regress_impl : RunOptions.t -> ThreadPoolOptions -> Request -> Status * Response;
  RunMultiInferenceWithServerCore :
    RunOptions.t -> ThreadPoolOptions -> Request -> Status * Response;
  GetModelMetadata_impl : Request -> Status * Response
}.

(** The world a call runs in: the events so far, and how often each clock
    has been read. *)
Record World : Type := mkWorld {
  trace : list Event;
  micros_reads : nat;
  gpr_reads : nat
}.

Definition emit (e : Event) : M World unit :=
  fun w => (tt, mkWorld (trace w ++ [e]) (micros_reads w) (gpr_reads w)).

Definition NowMicros (env : Env) : M World Z :=
  fun w => (NowMicros_at env (micros_reads w),
            mkWorld (trace w) (S (micros_reads w)) (gpr_reads w)).

(** [gpr_now(clock)]: one reading of the clock. *)
Definition gpr_now (env : Env) (clock : gpr_clock_type) : M World gpr_timespec :=
  fun w => (gpr_now_at env (gpr_reads w) clock,
            mkWorld (trace w) (micros_reads w) (S (gpr_reads w))).

Record PredictionServiceImpl : Type := mkService {
  enforce_session_run_timeout_ : bool;
  thread_pool_factory_ : option ThreadPoolFactory
}.

(** Lines 32-36.  The deadline is brought to the monotonic clock, which
    reads the clock unless the deadline is on that clock already or is
    infinite, and then the clock is read once more; the two arguments of
    [gpr_time_sub] are evaluated from left to right. *)
Definition DeadlineToTimeoutMillis (env : Env) (deadline : gpr_timespec) : M World Z :=
  converted <- gpr_convert_clock_type (gpr_now env) deadline GPR_CLOCK_MONOTONIC ;;
  now <- gpr_now env GPR_CLOCK_MONOTONIC ;;
  ret (gpr_time_to_millis (gpr_time_sub converted now)).

(** Lines 38-48. *)
Definition GetThreadPoolOptions (thread_pool_factory : option ThreadPoolFactory)
    : ThreadPoolOptions :=
  match thread_pool_factory with
  | Some f => mkThreadPoolOptions (Some (GetInterOpThreadPool f)) (Some (GetIntraOpThreadPool f))
  | None => mkThreadPoolOptions None None
  end.

(** The opening lines shared by Predict, Classify, Regress and MultiInference:
    [run_options = RunOptions(); if (enforce_session_run_timeout_)
     run_options.set_timeout_in_ms(DeadlineToTimeoutMillis(context->raw_deadline()));] *)
Definition make_run_options (svc : PredictionServiceImpl) (env : Env)
    (context : ServerContext) : M World RunOptions.t :=
  let run_options := RunOptions.default in
  if enforce_session_run_timeout_ svc then
    t <- DeadlineToTimeoutMillis env (raw_deadline context) ;;
    ret (RunOptions.set_timeout_in_ms t run_options)
  else ret run_options.

(** Lines 52-77.  [Call_Predict] marks [predictor_->Predict(...)]. *)
Definition Predict (svc : PredictionServiceImpl) (env : Env)
    (context : ServerContext) (request : Request) : M World (grpc.Status * Response) :=
  start <- NowMicros env ;;
  run_options <- make_run_options svc env context ;;
  emit (Call_Predict run_options request) ;;;
  let '(tf_status, response) := predictor_Predict env run_options request in
  let status := ToGRPCStatus tf_status in
  (if grpc.ok status then
     now <- NowMicros env ;;
     emit (RecordRequestLatency (ModelSpec.name (model_spec request)) "Predict" "GRPC"
                                (to_uint64 (now - start)))
   else emit (VLOG 1 ("Predict failed: " +:+ grpc.error_message status))) ;;;
  emit (RecordModelRequestCount (ModelSpec.name (model_spec request)) tf_status) ;;;
  ret (status, response).

(** Lines 79-88. *)
Definition GetModelMetadata (svc : PredictionServiceImpl) (env : Env)
    (context : ServerContext) (request : Request) : M World (grpc.Status * Response) :=
  emit (Call_GetModelMetadata request) ;;;
  let '(tf_status, response) := GetModelMetadata_impl env request in
  let status := ToGRPCStatus tf_status in
  (if negb (grpc.ok status) then
     emit (VLOG 1 ("GetModelMetadata failed: " +:+ grpc.error_message status))
   else ret tt) ;;;
  ret (status, response).

(** Lines 90-117. *)
Definition Classify (svc : PredictionServiceImpl) (env : Env)
    (context : ServerContext) (request : Request) : M World (grpc.Status * Response) :=
  start <- NowMicros env ;;
  run_options <- make_run_options svc env context ;;
  let pools := GetThreadPoolOptions (thread_pool_factory_ svc) in
  emit (Call_Classify run_options pools request) ;;;
  let '(tf_status, response) := Classify_impl env run_options pools request in
  let status := ToGRPCStatus tf_status in
  (if grpc.ok status then
     now <- NowMicros env ;;
     emit (RecordRequestLatency (ModelSpec.name (model_spec request)) "Classify" "GRPC"
                                (to_uint64 (now - start)))
   else emit (VLOG 1 ("Classify request failed: " +:+ grpc.error_message status))) ;;;
  emit (RecordModelRequestCount (ModelSpec.name (model_spec request)) tf_status) ;;;
  ret (status, response).

(** Lines 119-146. *)
Definition Regress (svc : PredictionServiceImpl) (env : Env)
    (context : ServerContext) (request : Request) : M World (grpc.Status * Response) :=
  start <- NowMicros env ;;
  run_options <- make_run_options svc env context ;;
  let pools := GetThreadPoolOptions (thread_pool_factory_ svc) in
  emit (Call_Regress run_options pools request) ;;;
  let '(tf_status, response) := Regress_impl env run_options pools request in
  let status := ToGRPCStatus tf_status in
  (if grpc.ok status then
     now <- NowMicros env ;;
     emit (RecordRequestLatency (ModelSpec.name (model_spec request)) "Regress" "GRPC"
                                (to_uint64 (now - start)))
   else emit (VLOG 1 ("Regress request failed: " +:+ grpc.error_message status))) ;;;
  emit (RecordModelRequestCount (ModelSpec.name (model_spec request)) tf_status) ;;;
  ret (status, response).

(** Lines 148-164. *)
Definition MultiInference (svc : PredictionServiceImpl) (env : Env)
    (context : ServerContext) (request : Request) : M World (grpc.Status * Response) :=
  run_options <- make_run_options svc env context ;;
  let pools := GetThreadPoolOptions (thread_pool_factory_ svc) in
  emit (Call_RunMultiInferenceWithServerCore run_options pools request) ;;;
  let '(tf_status, response) := RunMultiInferenceWithServerCore env run_options pools request in
  let status := ToGRPCStatus tf_status in
  (if negb (grpc.ok status) then
     emit (VLOG 1 ("MultiInference request failed: " +:+ grpc.error_message status))
   else ret tt) ;;;
  ret (status, response).

(** The five operations, as one function. *)
Inductive Operation : Type :=
| OpPredict | OpClassify | OpRegress | OpMultiInference | OpGetModelMetadata.

Definition dispatch (op : Operation) :
    PredictionServiceImpl -> Env -> ServerContext -> Request ->
    M World (grpc.Status * Response) :=
  match op with
  | OpPredict => Predict
  | OpClassify => Classify
  | OpRegress => Regress
  | OpMultiInference => MultiInference
  | OpGetModelMetadata => GetModelMetadata
  end.

(** The events a computation adds to the trace of the world it starts in. *)
Definition events_of {A} (m : M World A) (w : World) : list Event :=
  drop (length (trace w)) (trace (snd (m w))).

Definition is_latency_sample (e : Event) : bool :=
  match e with RecordRequestLatency _ _ _ _ => true | _ => false end.
Definition is_count_sample (e : Event) : bool :=
  match e with RecordModelRequestCount _ _ => true | _ => false end.
Definition latency_samples (tr : list Event) : nat :=
  length (List.filter is_latency_sample tr).
Definition count_samples (tr : list Event) : nat :=
  length (List.filter is_count_sample tr).

(** The [RunOptions] the servable layer was called with, in call order. *)
Definition run_options_handed (tr : list Event) : list RunOptions.t :=
  omap (fun e => match e with
                 | Call_Predict ro _ | Call_Classify ro _ _ | Call_Regress ro _ _
                 | Call_RunMultiInferenceWithServerCore ro _ _ => Some ro
                 | _ => None
                 end) tr.

End PredictionService.

(** ** The REST helper: http_rest_api_util.cc *)

Module HttpRestApiUtil.

(** Lines 209-230.  [model_spec] is the caller's message, written in place;
    the second component of the result is the message after the call. *)
Definition FillModelSpecWithNameVersionAndLabel
    (model_name : string) (model_version : option Z)
    (model_version_label : option string) (model_spec : ModelSpec.t)
    : Status * ModelSpec.t :=
  let model_spec := ModelSpec.set_name model_name model_spec in
  match model_version, model_version_label with
  | Some v, Some l =>
      (errors.InvalidArgument
         ("Both model version (" +:+ StrCat_int v +:+
          ") and model version label (" +:+ l +:+ ") cannot be supplied."),
       model_spec)
  | _, _ =>
      let model_spec :=
        match model_version with
        | Some v => ModelSpec.set_version v model_spec
        | None => model_spec
        end in
      let model_spec :=
        match model_version_label with
        | Some l => ModelSpec.set_version_label l model_spec
        | None => model_spec
        end in
      (Status_OK, model_spec)
  end.

(** The selector a call leaves in the spec when it succeeds. *)
Definition selector_supplied (model_version : option Z)
    (model_version_label : option string) (before : ModelSpec.version_choice)
    : ModelSpec.version_choice :=
  match model_version, model_version_label with
  | Some v, _ => ModelSpec.version v
  | None, Some l => ModelSpec.version_label l
  | None, None => before
  end.

(** *** The remaining functions of http_rest_api_util.cc *)

Definition kPredictionApiGegex : string :=
  "(?i)/v1/models/([^/:]+)(?:(?:/versions/(\d+))|(?:/labels/([^/:]+)))?:(classify|regress|predict)".
Definition kModelStatusApiRegex : string :=
  "(?i)/v1/models(?:/([^/:]+))?(?:(?:/versions/(\d+))|(?:/labels/([^/:]+)))?(?:\/(metadata))?".

(** Lines 199-201 and 203-207: [headers->push_back(...)]. *)
Definition AddHeaders (headers : list (string * string)) : list (string * string) :=
  (headers ++ [("Content-Type", "application/json")])%list.
Definition AddCORSHeaders (headers : list (string * string)) : list (string * string) :=
  (headers ++ [("Access-Control-Allow-Origin", "*");
               ("Access-Control-Allow-Methods", "POST, GET");
               ("Access-Control-Allow-Headers", "Content-Type")])%list.

(** [absl::SimpleAtoi] into an [int64] (absl/strings/numbers.h, outside this
    repository): ASCII whitespace is stripped at both ends, one sign may
    lead, the rest must be one or more decimal digits, and the value must
    fit. *)
Definition ascii_isspace (c : ascii) : bool :=
  let n := nat_of_ascii c in
  (n =? 32)%nat || ((9 <=? n)%nat && (n <=? 13)%nat).
Definition digit_of (c : ascii) : option Z :=
  let n := nat_of_ascii c in
  if (48 <=? n)%nat && (n <=? 57)%nat then Some (Z.of_nat n - 48) else None.
Fixpoint parse_digits (acc : Z) (cs : list ascii) : option Z :=
  match cs with
  | [] => Some acc
  | c :: cs' =>
      match digit_of c with
      | Some d => parse_digits (acc * 10 + d) cs'
      | None => None
      end
  end.
Fixpoint skip_spaces (cs : list ascii) : list ascii :=
  match cs with
  | c :: cs' => if ascii_isspace c then skip_spaces cs' else cs
  | [] => []
  end.
Definition strip_spaces (cs : list ascii) : list ascii :=
  rev (skip_spaces (rev (skip_spaces cs))).
Definition SimpleAtoi (text : string) : option Z :=
  match strip_spaces (list_ascii_of_string text) with
  | [] => None
  | "-"%char :: digits =>
      match digits with
      | [] => None
      | _ => match parse_digits 0 digits with
             | Some v => if v <=? - INT64_MIN then Some (- v) else None
             | None => None
             end
      end
  | "+"%char :: digits =>
      match digits with
      | [] => None
      | _ => match parse_digits 0 digits with
             | Some v => if v <=? INT64_MAX then Some v else None
             | None => None
             end
      end
  | digits =>
      match parse_digits 0 digits with
      | Some v => if v <=? INT64_MAX then Some v else None
      | None => None
      end
  end.

(** What [DecodeArg] does to libcurl. *)
Inductive CurlEvent : Type :=
| curl_global_init
| curl_easy_init (handle_returned : bool)
| curl_easy_unescape (input : string) (length : Z) (decoded : bool)
| curl_free
| curl_easy_cleanup.

(** The libraries behind the parser: RE2's full match of a text against a
    pattern with four capture groups ([None]: no match; a group that took no
    part in the match is the empty string), and libcurl ([curl_easy_init]
    may return no handle, [curl_easy_unescape] no string). *)
Record Web : Type := mkWeb {
  RE2_FullMatch : string -> string -> option (string * string * string * string);
  curl_handle_available : bool;
  unescape : string -> option string
}.

(** The process as [DecodeArg] sees it: the calls into libcurl so far, and
    whether the function's static [run_once] has been initialised. *)
Record Process : Type := mkProcess { curl_trace : list CurlEvent; run_once : bool }.

Definition curl (e : CurlEvent) : M Process unit :=
  fun p => (tt, mkProcess (curl_trace p ++ [e]) (run_once p)).

(** The initialiser of the function-local static: it runs on the first call. *)
Definition initialise_run_once : M Process unit :=
  fun p => if run_once p then (tt, p)
           else (tt, mkProcess (curl_trace p ++ [curl_global_init]) true).

(** Lines 232-251.  [arg] is written in place; the second component of the
    result is the string after the call. *)
Definition DecodeArg (web : Web) (arg : string) : M Process (bool * string) :=
  initialise_run_once ;;;
  curl (curl_easy_init (curl_handle_available web)) ;;;
  if curl_handle_available web then
    match unescape web arg with
    | None =>
        curl (curl_easy_unescape arg (Z.of_nat (String.length arg)) false) ;;;
        ret (false, arg)
    | Some cres =>
        curl (curl_easy_unescape arg (Z.of_nat (String.length arg)) true) ;;;
        curl curl_free ;;;
        curl curl_easy_cleanup ;;;
        ret (true, cres)
    end
  else ret (false, arg).

Module ParseResult.
(** The output parameters of [ParseModelInfo]. *)
Record t : Type := mk {
  model_name : string;
  model_version : option Z;
  model_version_label : option string;
  method : string;
  model_subresource : string;
  parse_successful : bool
}.
End ParseResult.

(** Lines 253-293.  The output parameters are written in place; the second
    component of the result is what they hold after the call. *)
Definition ParseModelInfo (web : Web) (http_method request_path : string)
    (out : ParseResult.t) : M Process (Status * ParseResult.t) :=
  let model_version_str := "" in
  let model_version_label_str := "" in
  let '(out, model_version_str, model_version_label_str) :=
    if String.eqb http_method "POST" then
      match RE2_FullMatch web request_path kPredictionApiGegex with
      | Some (name, version_str, label_str, method) =>
          (ParseResult.mk name (ParseResult.model_version out)
             (ParseResult.model_version_label out) method
             (ParseResult.model_subresource out) true,
           version_str, label_str)
      | None =>
          (ParseResult.mk (ParseResult.model_name out) (ParseResult.model_version out)
             (ParseResult.model_version_label out) (ParseResult.method out)
             (ParseResult.model_subresource out) false,
           model_version_str, model_version_label_str)
      end
    else if String.eqb http_method "GET" then
      match RE2_FullMatch web request_path kModelStatusApiRegex with
      | Some (name, version_str, label_str, subresource) =>
          (ParseResult.mk name (ParseResult.model_version out)
             (ParseResult.model_version_label out) (ParseResult.method out)
             subresource true,
           version_str, label_str)
      | None =>
          (ParseResult.mk (ParseResult.model_name out) (ParseResult.model_version out)
             (ParseResult.model_version_label out) (ParseResult.method out)
             (ParseResult.model_subresource out) false,
           model_version_str, model_version_label_str)
      end
    else (out, model_version_str, model_version_label_str) in
  r <- (if negb (String.eqb (ParseResult.model_name out) "")
        then DecodeArg web (ParseResult.model_name out)
        else ret (true, ParseResult.model_name out)) ;;
  let '(decoded, name) := r in
  let out :=
    ParseResult.mk name (ParseResult.model_version out)
      (ParseResult.model_version_label out) (ParseResult.method out)
      (ParseResult.model_subresource out) (ParseResult.parse_successful out) in
  if negb decoded
  then ret (errors.InvalidArgument ("Failed to decode model name:" +:+ name), out)
  else
  match (if negb (String.eqb model_version_str "")
         then match SimpleAtoi model_version_str with
              | Some version =>
                  inr (ParseResult.mk (ParseResult.model_name out) (Some version)
                         (ParseResult.model_version_label out) (ParseResult.method out)
                         (ParseResult.model_subresource out)
                         (ParseResult.parse_successful out))
              | None =>
                  inl (errors.InvalidArgument
                         ("Failed to convert version: " +:+ model_version_str
                          +:+ " to numeric."))
              end
         else inr out) with
  | inl st => ret (st, out)
  | inr out =>
      if negb (String.eqb model_version_label_str "") then
        r <- DecodeArg web model_version_label_str ;;
        let '(decoded, label) := r in
        if negb decoded
        then ret (errors.InvalidArgument
                    ("Failed to decode model version label:" +:+ label), out)
        else ret (Status_OK,
                  ParseResult.mk (ParseResult.model_name out)
                    (ParseResult.model_version out) (Some label)
                    (ParseResult.method out) (ParseResult.model_subresource out)
                    (ParseResult.parse_successful out))
      else ret (Status_OK, out)
  end.

(** The curl handles a trace leaves open: those handed out and not cleaned
    up. *)
Definition handles_open (tr : list CurlEvent) : Z :=
  fold_left (fun n e => match e with
                        | curl_easy_init true => n + 1
                        | curl_easy_cleanup => n - 1
                        | _ => n
                        end) tr 0.
Definition global_inits (tr : list CurlEvent) : nat :=
  length (List.filter (fun e => match e with curl_global_init => true | _ => false end) tr).
(** The calls a computation adds to the trace of the process it starts in. *)
Definition curl_calls {A} (m : M Process A) (p : Process) : list CurlEvent :=
  drop (length (curl_trace p)) (curl_trace (snd (m p))).

(** The value of a string of decimal digits. *)
Definition decimal_value (text : string) : Z :=
  fold_left (fun acc c => acc * 10 + default 0 (digit_of c)) (list_ascii_of_string text) 0.
Definition all_digits (text : string) : Prop :=
  text <> "" /\ Forall (fun c => is_Some (digit_of c)) (list_ascii_of_string text).

(** libcurl with a handle to give and percent-decoding of "%2F" only, and a
    matcher that knows two paths. *)
Definition web_example : Web :=
  mkWeb (fun text pattern =>
           if String.eqb text "/v1/models/half_plus_two/versions/99999999999999999999:predict"
           then Some ("half_plus_two", "99999999999999999999", "", "predict")
           else if String.eqb text "/v1/models/half_plus_two/versions/123:predict"
           then Some ("half_plus_two", "123", "", "predict")
           else None)
        true
        (fun s => if String.eqb s "a%" then None else Some s).
(** A matcher that knows one path, and knows it for the status pattern
    only. *)
Definition web_status_only : Web :=
  mkWeb (fun text pattern =>
           if String.eqb pattern kModelStatusApiRegex
              && String.eqb text "/v1/models/half_plus_two"
           then Some ("half_plus_two", "", "", "")
           else None)
        true
        (fun s => Some s).
Definition process0 : Process := mkProcess [] false.
Definition nothing_parsed : ParseResult.t := ParseResult.mk "" None None "" "" true.

End HttpRestApiUtil.

(** ** The bundle factory: saved_model_bundle_factory.cc *)

Module TensorInfo.
Record t : Type := mk { name : string; dtype : string; tensor_shape : list Z }.
End TensorInfo.

Module SignatureDef.
Record t : Type := mk {
  inputs : gmap string TensorInfo.t;
  outputs : gmap string TensorInfo.t;
  method_name : string
}.
End SignatureDef.

Module MetaGraphDef.
(** The fields of the [MetaGraphDef] message; the sub-messages other than
    the signature map are kept serialised. *)
Record t : Type := mk {
  meta_info_def : string;
  graph_def : string;
  saver_def : string;
  collection_def : gmap string string;
  signature_def : gmap string SignatureDef.t;
  asset_file_def : list string;
  object_graph_def : string
}.
(** A freshly constructed message: every field at its default. *)
Definition empty : t := mk "" "" "" ∅ ∅ [] "".
Definition set_signature_def (s : gmap string SignatureDef.t) (m : t) : t :=
  mk (meta_info_def m) (graph_def m) (saver_def m) (collection_def m) s
     (asset_file_def m) (object_graph_def m).
End MetaGraphDef.

(** [a.Swap(&b)]: the two values after the call. *)
Definition Swap {A} (a b : A) : A * A := (b, a).

Module BundleFactory.

Record BatchingParameters : Type := mkBatchingParameters {
  max_batch_size : option Z;
  batch_timeout_micros : option Z;
  max_enqueued_batches : option Z;
  num_batch_threads : option Z
}.

(** [SessionBundleConfig], by the accessors the factory uses;
    [batching_parameters] is [None] when [has_batching_parameters()] is false. *)
Record SessionBundleConfig : Type := mkConfig {
  session_target : string;
  session_config : string;
  batching_parameters : option BatchingParameters;
  saved_model_tags : list string;
  prefer_tflite_model : bool;
  num_tflite_interpreters : Z;
  remove_unused_fields_from_bundle_metagraph : bool;
  resource_estimation_uses_validation_result : bool
}.

Record ServableId : Type := mkServableId { servable_name : string; servable_version : Z }.
(** [Loader::Metadata] *)
Record Metadata : Type := mkMetadata { servable_id : ServableId }.

(** [ConfigProto.experimental.session_metadata] *)
Record SessionMetadata : Type := mkSessionMetadata { sm_name : string; sm_version : Z }.
Record SessionOptions : Type := mkSessionOptions {
  target : string;
  config : string;                              (* the rest of the ConfigProto *)
  session_metadata : option SessionMetadata
}.

(** A [std::shared_ptr<Batcher>]: the scheduler it points to, by identity. *)
Definition Batcher : Type := nat.

(** The objects behind a [std::unique_ptr<Session>].  [TfLiteSession] is the
    lightweight backend, [DirectSession] the full engine; the other two are
    the adapters of bundle_factory_util. *)
Inductive Session : Type :=
| TfLiteSession (model_bytes : string) (num_interpreters : Z)
| DirectSession (export_dir : string) (tags : gset string) (options : SessionOptions)
| SessionWrapper (wrapped : Session)
| BatchingSession (params : BatchingParameters) (scheduler : Batcher)
    (signatures : list SignatureDef.t) (wrapped : Session).

Record SavedModelBundle : Type := mkBundle {
  session : option Session;                     (* null until a loader sets it *)
  meta_graph_def : MetaGraphDef.t
}.
(** [new SavedModelBundle] *)
Definition new_SavedModelBundle : SavedModelBundle := mkBundle None MetaGraphDef.empty.

(** Calls that leave the factory, each with what it returned. *)
Inductive Event : Type :=
| Call_FilesExist (fnames : list string) (result : bool)
| Call_GetFileSize (fname : string) (result : Status)
| Call_NewRandomAccessFile (fname : string) (result : Status)
| Call_Read (fname : string) (offset n : Z) (result : Status)
| Call_TfLiteSession_Create (model_bytes : string) (num_interpreters : Z) (result : Status)
| Call_LoadSessionBundleOrSavedModelBundle (session_options : SessionOptions)
    (run_options : RunOptions.t) (export_dir : string) (tags : gset string)
    (result : Status)
| Call_CreateBatchScheduler (params : BatchingParameters) (result : Status)
| Call_WrapSessionForBatching (params : BatchingParameters) (batch_scheduler : Batcher)
    (signatures : list SignatureDef.t) (result : Status)
| Call_WrapSession (result : Status)
| LOG_INFO (msg : string).

(** The collaborators: the file system behind [Env::Default()], and what
    the loaders and helpers outside this file answer. *)
Record Env : Type := mkEnv {
  FilesExist : list string -> bool;
  GetFileSize : string -> Status * Z;
  NewRandomAccessFile : string -> Status;
  (* [file->Read(offset, n, &sv, scratch)]: the status and the [n] bytes of
     [scratch] after the call *)
  Read : string -> Z -> Z -> Status * string;
  (* what [TfLiteSession::Create] makes of a serialised model: its status,
     and the signatures it extracts when that is OK *)
  tflite_model : string -> Status * gmap string SignatureDef.t;
  (* the status of [LoadSessionBundleOrSavedModelBundle] and the
     [MetaGraphDef] of the variant that matched the tags *)
  load_saved_model :
    SessionOptions -> RunOptions.t -> string -> gset string -> Status * MetaGraphDef.t;
  GetSessionOptions : SessionBundleConfig -> SessionOptions;
  GetRunOptions : SessionBundleConfig -> RunOptions.t;
  create_batch_scheduler : BatchingParameters -> Status;
  wrap_session_for_batching :
    BatchingParameters -> list SignatureDef.t -> option Session -> Status;
  wrap_session : Status
}.

(** The world a call runs in: the events so far and the schedulers
    allocated so far. *)
Record World : Type := mkWorld { trace : list Event; schedulers : nat }.

Definition emit (e : Event) : M World unit :=
  fun w => (tt, mkWorld (trace w ++ [e]) (schedulers w)).

Definition new_scheduler : M World Batcher :=
  fun w => (schedulers w, mkWorld (trace w) (S (schedulers w))).

(** [tensorflow::io::JoinPath] of two parts. *)
Definition ends_with_slash (s : string) : bool :=
  match last (list_ascii_of_string s) with
  | Some c => bool_decide (c = "/"%char)
  | None => false
  end.
Definition JoinPath (a b : string) : string :=
  if bool_decide (b = "") then a
  else if bool_decide (a = "") then b
  else match b with
       | String "/" rest => if ends_with_slash a then a +:+ rest else a +:+ b
       | _ => if ends_with_slash a then a +:+ b else a +:+ "/" +:+ b
       end.

(** [tensorflow::kSavedModelTagServe], tag_constants.h *)
Definition kSavedModelTagServe : string := "serve".
Definition kTfLiteModelFilename : string := "model.tflite".

(** Modelled from the spec: [TfLiteSession::Create] of tflite_session.cc,
    which is not among the sources.  The spec (4.2, step 2): "build the
    lightweight backend with config.num_interpreters replicas directly from
    the artifact's serialized bytes, extracting its embedded signature map";
    (section 8): the "signature map contains exactly the signatures embedded
    in that file".  The caller's map is cleared and then filled, one entry
    per extracted signature. *)
Definition TfLiteSession_Create (env : Env) (buffer : string)
    (signatures : gmap string SignatureDef.t) (num_interpreters : Z)
    : M World (Status * option Session * gmap string SignatureDef.t) :=
  let '(st, extracted) := tflite_model env buffer in
  emit (Call_TfLiteSession_Create buffer num_interpreters st) ;;;
  if negb (ok st) then ret (st, None, signatures) else
  let signatures : gmap string SignatureDef.t := ∅ in
  let signatures :=
    map_fold (fun key sigdef acc => <[key := sigdef]> acc) signatures extracted in
  ret (Status_OK, Some (TfLiteSession buffer num_interpreters), signatures).

(** Modelled from the spec: [LoadSessionBundleOrSavedModelBundle] of
    session_bundle_util, which is not among the sources.  The spec (4.2,
    step 2): "load the full-engine backend by tag match against the
    artifact's embedded graph variants; fail with INVALID_ARGUMENT if no
    variant matches the requested tags". *)
Definition LoadSessionBundleOrSavedModelBundle (env : Env)
    (session_options : SessionOptions) (run_options : RunOptions.t)
    (export_dir : string) (tags : gset string) (bundle : SavedModelBundle)
    : M World (Status * SavedModelBundle) :=
  let '(st, metagraph) := load_saved_model env session_options run_options export_dir tags in
  emit (Call_LoadSessionBundleOrSavedModelBundle session_options run_options
          export_dir tags st) ;;;
  if ok st
  then ret (st, mkBundle (Some (DirectSession export_dir tags session_options)) metagraph)
  else ret (st, bundle).

(** Modelled from the spec: [CreateBatchScheduler] of bundle_factory_util,
    which is not among the sources.  The spec (section 3): the scheduler is
    "created once before any bundle that uses it". *)
Definition CreateBatchScheduler (env : Env) (params : BatchingParameters)
    : M World (Status * option Batcher) :=
  let st := create_batch_scheduler env params in
  emit (Call_CreateBatchScheduler params st) ;;;
  if ok st
  then (batcher <- new_scheduler ;; ret (st, Some batcher))
  else ret (st, None).

(** Modelled from the spec: [WrapSessionForBatching] of bundle_factory_util,
    which is not among the sources.  The spec (4.2, step 5): the factory
    "wraps the backend in a batching adapter bound to that scheduler and
    signature set". *)
Definition WrapSessionForBatching (env : Env) (params : BatchingParameters)
    (batch_scheduler : Batcher) (signatures : list SignatureDef.t)
    (session : option Session) : M World (Status * option Session) :=
  let st := wrap_session_for_batching env params signatures session in
  emit (Call_WrapSessionForBatching params batch_scheduler signatures st) ;;;
  if ok st
  then ret (st, BatchingSession params batch_scheduler signatures <$> session)
  else ret (st, session).

(** Modelled from the spec: [WrapSession] of bundle_factory_util, which is
    not among the sources.  The spec (4.2, step 5): "the backend is wrapped
    in a trivial pass-through adapter". *)
Definition WrapSession (env : Env) (session : option Session)
    : M World (Status * option Session) :=
  let st := wrap_session env in
  emit (Call_WrapSession st) ;;;
  if ok st then ret (st, SessionWrapper <$> session) else ret (st, session).

(** Lines 37-44.  Extracts the signatures from [bundle]. *)
Definition GetSignatureDefs (bundle : SavedModelBundle) : list SignatureDef.t :=
  map_fold (fun _ signature_def signature_defs => (signature_defs ++ [signature_def])%list)
           [] (MetaGraphDef.signature_def (meta_graph_def bundle)).

(** Lines 65-87.  The bundle is written in place; the second component of
    the result is the bundle after the call. *)
Definition LoadTfLiteModel (env : Env) (model_dir : string) (bundle : SavedModelBundle)
    (num_interpreters : Z) : M World (Status * SavedModelBundle) :=
  let fname := JoinPath model_dir kTfLiteModelFilename in
  let '(st, size) := GetFileSize env fname in
  emit (Call_GetFileSize fname st) ;;;
  if negb (ok st) then ret (st, bundle) else
  let st := NewRandomAccessFile env fname in
  emit (Call_NewRandomAccessFile fname st) ;;;
  if negb (ok st) then ret (st, bundle) else
  let '(st, model_bytes) := Read env fname 0 size in
  emit (Call_Read fname 0 size st) ;;;
  if negb (ok st) then ret (st, bundle) else
  r <- TfLiteSession_Create env model_bytes
         (MetaGraphDef.signature_def (meta_graph_def bundle)) num_interpreters ;;
  let '(st, tflite_session, signatures) := r in
  let bundle :=
    mkBundle (session bundle)
             (MetaGraphDef.set_signature_def signatures (meta_graph_def bundle)) in
  if negb (ok st) then ret (st, bundle) else
  ret (Status_OK, mkBundle tflite_session (meta_graph_def bundle)).

(** Lines 89-92. *)
Definition TfLiteModelFound (env : Env) (model_dir : string) : M World bool :=
  let fname := JoinPath model_dir kTfLiteModelFilename in
  let found := FilesExist env [fname] in
  emit (Call_FilesExist [fname] found) ;;;
  ret found.

Record SavedModelBundleFactory : Type := mkFactory {
  config_ : SessionBundleConfig;
  batch_scheduler_ : option Batcher             (* [None] is the null pointer *)
}.

(** Lines 96-106. *)
Definition Create (env : Env) (config : SessionBundleConfig)
    : M World (Status * option SavedModelBundleFactory) :=
  let batcher : option Batcher := None in
  match batching_parameters config with
  | Some params =>
      r <- CreateBatchScheduler env params ;;
      let '(st, batcher) := r in
      if negb (ok st) then ret (st, None)
      else ret (Status_OK, Some (mkFactory config batcher))
  | None => ret (Status_OK, Some (mkFactory config batcher))
  end.

(** Lines 129-135: the tags the full engine is asked for. *)
Definition active_saved_model_tags (config : SessionBundleConfig) : gset string :=
  let saved_model_tags : gset string := list_to_set (saved_model_tags config) in
  if bool_decide (saved_model_tags = ∅)
  then {[ kSavedModelTagServe ]} ∪ saved_model_tags
  else saved_model_tags.

(** Lines 136-145: the session options, annotated with the servable's name
    and version when metadata is given. *)
Definition session_options_for (env : Env) (config : SessionBundleConfig)
    (metadata : option Metadata) : SessionOptions :=
  let result := GetSessionOptions env config in
  match metadata with
  | Some m =>
      mkSessionOptions (target result) (BundleFactory.config result)
        (Some (mkSessionMetadata (servable_name (servable_id m))
                                 (servable_version (servable_id m))))
  | None => result
  end.

(** Lines 147-154: the choice of the backend. *)
Definition load_backend (self : SavedModelBundleFactory) (env : Env)
    (metadata : option Metadata) (path : string) (bundle : SavedModelBundle)
    : M World (Status * SavedModelBundle) :=
  let saved_model_tags := active_saved_model_tags (config_ self) in
  let session_options := session_options_for env (config_ self) metadata in
  if prefer_tflite_model (config_ self) then
    found <- TfLiteModelFound env path ;;
    if found
    then LoadTfLiteModel env path bundle (num_tflite_interpreters (config_ self))
    else LoadSessionBundleOrSavedModelBundle env session_options
           (GetRunOptions env (config_ self)) path saved_model_tags bundle
  else LoadSessionBundleOrSavedModelBundle env session_options
         (GetRunOptions env (config_ self)) path saved_model_tags bundle.

(** Lines 155-166: the metagraph keeps its signature map only. *)
Definition remove_unused_fields (bundle : SavedModelBundle) : SavedModelBundle :=
  let metagraph := MetaGraphDef.empty in
  let '(bundle_metagraph, metagraph) := Swap (meta_graph_def bundle) metagraph in
  let '(bundle_signatures, metagraph_signatures) :=
    Swap (MetaGraphDef.signature_def bundle_metagraph)
         (MetaGraphDef.signature_def metagraph) in
  mkBundle (session bundle)
           (MetaGraphDef.set_signature_def bundle_signatures bundle_metagraph).

(** Lines 167-180: the session is wrapped, for batching when the
    configuration asks for it. *)
Definition wrap_bundle_session (self : SavedModelBundleFactory) (env : Env)
    (bundle : SavedModelBundle) : M World (Status * SavedModelBundle) :=
  match batching_parameters (config_ self) with
  | Some params =>
      emit (LOG_INFO "Wrapping session to perform batch processing") ;;;
      match batch_scheduler_ self with
      | None => ret (errors.Internal "batch_scheduler_ not set", bundle)
      | Some batch_scheduler =>
          let signatures := GetSignatureDefs bundle in
          r <- WrapSessionForBatching env params batch_scheduler signatures
                 (session bundle) ;;
          let '(st, wrapped) := r in
          ret (st, mkBundle wrapped (meta_graph_def bundle))
      end
  | None =>
      r <- WrapSession env (session bundle) ;;
      let '(st, wrapped) := r in
      ret (st, mkBundle wrapped (meta_graph_def bundle))
  end.

(** Lines 125-181, from the blocks above.  The second component of the
    result is what [*bundle] holds after the call. *)
Definition InternalCreateSavedModelBundle (self : SavedModelBundleFactory) (env : Env)
    (metadata : option Metadata) (path : string)
    : M World (Status * SavedModelBundle) :=
  let bundle := new_SavedModelBundle in
  r <- load_backend self env metadata path bundle ;;
  let '(st, bundle) := r in
  if negb (ok st) then ret (st, bundle) else
  let bundle :=
    if remove_unused_fields_from_bundle_metagraph (config_ self)
    then remove_unused_fields bundle else bundle in
  wrap_bundle_session self env bundle.

(** Lines 114-123. *)
Definition CreateSavedModelBundleWithMetadata (self : SavedModelBundleFactory)
    (env : Env) (metadata : Metadata) (path : string)
    : M World (Status * SavedModelBundle) :=
  InternalCreateSavedModelBundle self env (Some metadata) path.

Definition CreateSavedModelBundle (self : SavedModelBundleFactory) (env : Env)
    (path : string) : M World (Status * SavedModelBundle) :=
  InternalCreateSavedModelBundle self env None path.

(** The events a computation adds to the trace of the world it starts in. *)
Definition events_of {A} (m : M World A) (w : World) : list Event :=
  drop (length (trace w)) (trace (snd (m w))).

(** [m], run in [w], returns [a], adds the events [ev] and leaves
    [n] schedulers allocated. *)
Definition runs {A} (m : M World A) (w : World) (a : A) (ev : list Event) (n : nat) : Prop :=
  m w = (a, mkWorld (trace w ++ ev) n).

(** A [NamedTensorProto]: a name and a [TensorProto]. *)
Record NamedTensorProto (TensorProto : Type) : Type := mkNamedTensorProto {
  proto_name : string;
  proto_tensor : TensorProto
}.
Arguments mkNamedTensorProto {TensorProto} _ _.
Arguments proto_name {TensorProto} _.
Arguments proto_tensor {TensorProto} _.

(** Lines 46-60.  Parses a list of NamedTensorProtos into a list of
    name/tensor pairs.  [FromProto] is [Tensor::FromProto] ([None] when it
    returns false) and [ShortDebugString] the printer of the proto; [parsed]
    is written in place, and the second component of the result is the list
    after the call. *)
Fixpoint ParseFixedInputTensors {TensorProto Tensor : Type}
    (FromProto : TensorProto -> option Tensor)
    (ShortDebugString : TensorProto -> string)
    (protos : list (NamedTensorProto TensorProto))
    (parsed : list (string * Tensor)) : Status * list (string * Tensor) :=
  match protos with
  | [] => (Status_OK, parsed)
  | proto :: rest =>
      match FromProto (proto_tensor proto) with
      | None =>
          (errors.InvalidArgument
             ("Unable to parse tensor proto: " +:+ ShortDebugString (proto_tensor proto)),
           parsed)
      | Some tensor =>
          ParseFixedInputTensors FromProto ShortDebugString rest
            (parsed ++ [(proto_name proto, tensor)])%list
      end
  end.

End BundleFactory.

(** ** The dispatcher's contract, as the specification words it *)

Module DispatcherContract.
Import gpr PredictionService.

(** The status a call returns and the events it adds. *)
Definition status_of (op : Operation) svc env context request (w : World) : grpc.Status :=
  fst (fst (dispatch op svc env context request w)).
Definition effects_of (op : Operation) svc env context request (w : World) : list Event :=
  events_of (dispatch op svc env context request) w.

(** Spec 4.1 step 4 and section 8: one latency sample and one count sample on
    success, no latency sample and one count sample on failure. *)
Definition metrics_as_specified (op : Operation) svc env context request w : Prop :=
  let ev := effects_of op svc env context request w in
  if grpc.ok (status_of op svc env context request w)
  then latency_samples ev = 1%nat /\ count_samples ev = 1%nat
  else latency_samples ev = 0%nat /\ count_samples ev = 1%nat.

(** A point in time as a count of nanoseconds. *)
Definition nanos (t : gpr_timespec) : Z := tv_sec t * GPR_NS_PER_SEC + tv_nsec t.

(** Spec 4.1 step 1: max(0, deadline - now), truncated to milliseconds. *)
Definition timeout_as_specified (deadline now : gpr_timespec) : Z :=
  Z.max 0 (Z.quot (nanos deadline - nanos now) GPR_NS_PER_MS).


Definition now_of (env : Env) (w : World) : gpr_timespec :=
  gpr_now_at env (gpr_reads w) GPR_CLOCK_MONOTONIC.

(** How many readings it takes: one for a deadline on the monotonic clock
    or an infinite one, two for a time span, three for a deadline on
    another clock. *)
Definition readings_taken (deadline : gpr_timespec) : nat :=
  if decide (clock_type deadline = GPR_CLOCK_MONOTONIC) then 1%nat
  else if (tv_sec deadline =? INT64_MAX) || (tv_sec deadline =? INT64_MIN) then 1%nat
  else if decide (clock_type deadline = GPR_TIMESPAN) then 2%nat
  else 3%nat.


(** The timeout [DeadlineToTimeoutMillis] returns when the clock has been
    read [reads] times before. *)
Definition timeout_in (env : Env) (deadline : gpr_timespec) (reads : nat) : Z :=
  fst (DeadlineToTimeoutMillis env deadline (mkWorld [] 0 reads)).

Definition timeout_handed_as_specified (op : Operation) svc env context request w : Prop :=
  run_options_handed (effects_of op svc env context request w) =
  [ if enforce_session_run_timeout_ svc
    then RunOptions.mk (timeout_as_specified (raw_deadline context) (now_of env w))
    else RunOptions.default ].




(** Concrete calls. *)
Definition answer (st : Status) : Env :=
  mkEnv (fun n => 1000 + 250 * Z.of_nat n)
        (fun n c => mk_timespec (100 + Z.of_nat n) 0 c)
        (fun _ _ => (st, "response"))
        (fun _ _ _ => (st, "response"))
        (fun _ _ _ => (st, "response"))
        (fun _ _ _ => (st, "response"))
        (fun _ => (st, "response")).
Definition env_ok : Env := answer Status_OK.
Definition env_not_found : Env :=
  answer (mkStatus error.NOT_FOUND "Servable not found for request: Latest(half_plus_two)").
Definition svc_enforcing : PredictionServiceImpl := mkService true None.
Definition svc_lenient : PredictionServiceImpl := mkService false None.
Definition half_plus_two : Request :=
  mkRequest (ModelSpec.mk "half_plus_two" ModelSpec.VERSION_CHOICE_NOT_SET "") "".
Definition world0 : World := mkWorld [] 0 0.
(** Deadlines one second before, and one and a half seconds after, the
    reading [100 s] that [env_ok] gives in [world0]. *)
Definition deadline_past : ServerContext :=
  mkServerContext (mk_timespec 99 0 GPR_CLOCK_MONOTONIC).
Definition deadline_ahead : ServerContext :=
  mkServerContext (mk_timespec 101 500000000 GPR_CLOCK_MONOTONIC).

End DispatcherContract.

(** ** What a dispatcher call can be observed to do *)

Module DispatcherObservations.
Import gpr PredictionService DispatcherContract.

(** The calls into the servable layer, in call order. *)
Definition is_servable_call (e : Event) : bool :=
  match e with
  | Call_Predict _ _ | Call_Classify _ _ _ | Call_Regress _ _ _
  | Call_RunMultiInferenceWithServerCore _ _ _ | Call_GetModelMetadata _ => true
  | _ => false
  end.
Definition servable_calls (tr : list Event) : list Event :=
  List.filter is_servable_call tr.

(** What the servable layer answers to a call. *)
Definition answer_to (env : Env) (e : Event) : option (Status * Response) :=
  match e with
  | Call_Predict ro request => Some (predictor_Predict env ro request)
  | Call_Classify ro pools request => Some (Classify_impl env ro pools request)
  | Call_Regress ro pools request => Some (Regress_impl env ro pools request)
  | Call_RunMultiInferenceWithServerCore ro pools request =>
      Some (RunMultiInferenceWithServerCore env ro pools request)
  | Call_GetModelMetadata request => Some (GetModelMetadata_impl env request)
  | _ => None
  end.

(** The thread pools handed to the servable layer. *)
Definition pools_handed (tr : list Event) : list ThreadPoolOptions :=
  omap (fun e => match e with
                 | Call_Classify _ pools _ | Call_Regress _ pools _
                 | Call_RunMultiInferenceWithServerCore _ pools _ => Some pools
                 | _ => None
                 end) tr.

(** The latency samples of a trace: key and value. *)
Definition latencies (tr : list Event) : list (string * string * string * Z) :=
  omap (fun e => match e with
                 | RecordRequestLatency model_name api entrypoint usec =>
                     Some (model_name, api, entrypoint, usec)
                 | _ => None
                 end) tr.

(** The request counts of a trace: key and status. *)
Definition request_counts (tr : list Event) : list (string * Status) :=
  omap (fun e => match e with
                 | RecordModelRequestCount model_name st => Some (model_name, st)
                 | _ => None
                 end) tr.

(** The log lines of a trace: level and text. *)
Definition log_lines (tr : list Event) : list (Z * string) :=
  omap (fun e => match e with VLOG level msg => Some (level, msg) | _ => None end) tr.

(** How each operation introduces the error it logs. *)
Definition log_prefix (op : Operation) : string :=
  match op with
  | OpPredict => "Predict failed: "
  | OpGetModelMetadata => "GetModelMetadata failed: "
  | OpClassify => "Classify request failed: "
  | OpRegress => "Regress request failed: "
  | OpMultiInference => "MultiInference request failed: "
  end.

(** The api name under which an operation records its latency. *)
Definition api_name (op : Operation) : string :=
  match op with
  | OpPredict => "Predict"
  | OpClassify => "Classify"
  | OpRegress => "Regress"
  | OpMultiInference => "MultiInference"
  | OpGetModelMetadata => "GetModelMetadata"
  end.

(** The operations that measure and count their calls. *)
Definition is_metered (op : Operation) : bool :=
  match op with
  | OpPredict | OpClassify | OpRegress => true
  | OpMultiInference | OpGetModelMetadata => false
  end.

(** A clock that answers [first] and then [second]. *)
Definition clock_of (first second : Z) (st : Status) : Env :=
  mkEnv (fun n => match n with O => first | _ => second end)
        (fun n c => mk_timespec 100 0 c)
        (fun _ _ => (st, "response"))
        (fun _ _ _ => (st, "response"))
        (fun _ _ _ => (st, "response"))
        (fun _ _ _ => (st, "response"))
        (fun _ => (st, "response")).

End DispatcherObservations.

(** ** The factory's contract, as the specification words it *)

Module FactoryContract.
Import BundleFactory.

(** The two execution backends a load can build. *)
Inductive Backend : Type :=
| Lightweight (model_bytes : string) (num_interpreters : Z)
| FullEngine (export_dir : string) (tags : gset string).

(** The backend a loader call tries to build, and the one it has built when
    it returns OK. *)
Definition backend_attempted (e : Event) : option Backend :=
  match e with
  | Call_TfLiteSession_Create model_bytes n _ => Some (Lightweight model_bytes n)
  | Call_LoadSessionBundleOrSavedModelBundle _ _ export_dir tags _ =>
      Some (FullEngine export_dir tags)
  | _ => None
  end.
Definition loader_status (e : Event) : Status :=
  match e with
  | Call_TfLiteSession_Create _ _ st => st
  | Call_LoadSessionBundleOrSavedModelBundle _ _ _ _ st => st
  | _ => Status_OK
  end.
Definition backend_constructed (e : Event) : option Backend :=
  if ok (loader_status e) then backend_attempted e else None.
Definition backends_attempted (tr : list Event) : list Backend := omap backend_attempted tr.
Definition backends_constructed (tr : list Event) : list Backend :=
  omap backend_constructed tr.

(** The schedulers the batching adapters of a trace were bound to, and the
    number of schedulers a trace has seen created. *)
Definition schedulers_bound (tr : list Event) : list Batcher :=
  omap (fun e => match e with
                 | Call_WrapSessionForBatching _ batch_scheduler _ _ => Some batch_scheduler
                 | _ => None
                 end) tr.
Definition schedulers_created (tr : list Event) : nat :=
  length (List.filter (fun e => match e with
                                | Call_CreateBatchScheduler _ st => ok st
                                | _ => false
                                end) tr).
Definition sessions_wrapped (tr : list Event) : nat :=
  length (List.filter (fun e => match e with
                                | Call_WrapSessionForBatching _ _ _ _ | Call_WrapSession _ => true
                                | _ => false
                                end) tr).

(** The backend below the adapters of a session. *)
Fixpoint backend_of (s : Session) : Session :=
  match s with
  | SessionWrapper wrapped => backend_of wrapped
  | BatchingSession _ _ _ wrapped => backend_of wrapped
  | _ => s
  end.

(** One load: its status, the bundle it leaves, the events it adds. *)
Definition Load (self : SavedModelBundleFactory) (env : Env) (metadata : option Metadata)
    (path : string) (w : World) : Status * SavedModelBundle :=
  fst (InternalCreateSavedModelBundle self env metadata path w).
Definition Load_events (self : SavedModelBundleFactory) (env : Env)
    (metadata : option Metadata) (path : string) (w : World) : list Event :=
  events_of (InternalCreateSavedModelBundle self env metadata path) w.
(** The outcome of the backend-loading step of that load (lines 147-154). *)
Definition loaded (self : SavedModelBundleFactory) (env : Env) (metadata : option Metadata)
    (path : string) (w : World) : Status * SavedModelBundle :=
  fst (load_backend self env metadata path new_SavedModelBundle w).

(** The lightweight artifact under [path], and its bytes when the three
    file-system calls of [LoadTfLiteModel] succeed. *)
Definition model_file (path : string) : string := JoinPath path kTfLiteModelFilename.
Definition model_file_bytes (env : Env) (path : string) : option string :=
  let fname := model_file path in
  let size := snd (GetFileSize env fname) in
  if ok (fst (GetFileSize env fname)) && ok (NewRandomAccessFile env fname)
     && ok (fst (Read env fname 0 size))
  then Some (snd (Read env fname 0 size)) else None.

Definition lightweight_selected (self : SavedModelBundleFactory) (env : Env)
    (path : string) : bool :=
  prefer_tflite_model (config_ self) && FilesExist env [model_file path].



(** Spec 4.2 step 5: a load that asks for batching without a scheduler
    "fails with Internal". *)
Definition missing_scheduler_as_specified (self : SavedModelBundleFactory) (env : Env)
    (metadata : option Metadata) (path : string) (w : World) : Prop :=
  code (fst (Load self env metadata path w)) = error.INTERNAL.

(** Spec 4.2 step 1. *)
Definition tags_as_specified (config : SessionBundleConfig) : gset string :=
  match saved_model_tags config with
  | [] => {[ "serve" ]}
  | tags => list_to_set tags
  end.

(** Spec 4.2 step 4: "a reduced copy retaining only the signature-definition
    subsection". *)
Definition signature_defs_only (m : MetaGraphDef.t) : MetaGraphDef.t :=
  MetaGraphDef.mk "" "" "" ∅ (MetaGraphDef.signature_def m) [] "".

(** *** Concrete loads *)

(** A file system given by its files, loaders given by what they answer, and
    helpers that always succeed. *)
Definition file_contents (files : list (string * string)) (fname : string)
    : option string :=
  snd <$> List.find (fun entry => String.eqb (fst entry) fname) files.

Definition NotFound (fname : string) : Status :=
  mkStatus error.NOT_FOUND (fname +:+ "; No such file or directory").

Definition env_of (files : list (string * string))
    (tflite : string -> Status * gmap string SignatureDef.t)
    (saved_model : string -> gset string -> Status * MetaGraphDef.t) : Env :=
  mkEnv
    (forallb (fun fname => bool_decide (is_Some (file_contents files fname))))
    (fun fname => match file_contents files fname with
                  | Some bytes => (Status_OK, Z.of_nat (String.length bytes))
                  | None => (NotFound fname, 0)
                  end)
    (fun fname => match file_contents files fname with
                  | Some _ => Status_OK
                  | None => NotFound fname
                  end)
    (fun fname offset n =>
       match file_contents files fname with
       | Some bytes => (Status_OK, substring (Z.to_nat offset) (Z.to_nat n) bytes)
       | None => (NotFound fname, "")
       end)
    tflite
    (fun _ _ export_dir tags => saved_model export_dir tags)
    (fun config => mkSessionOptions (session_target config) (session_config config) None)
    (fun _ => RunOptions.default)
    (fun _ => Status_OK)
    (fun _ _ _ => Status_OK)
    Status_OK.

Definition world0 : World := mkWorld [] 0.

Definition default_config : SessionBundleConfig :=
  mkConfig "" "" None [] false 1 false false.

(** The spec's example: "batching with max_batch_size=2, max_latency=50ms". *)
Definition batching_2_50ms : BatchingParameters :=
  mkBatchingParameters (Some 2) (Some 50000) None None.
Definition batching_config : SessionBundleConfig :=
  mkConfig "" "" (Some batching_2_50ms) [] false 1 false false.
Definition factory_without_scheduler : SavedModelBundleFactory :=
  mkFactory batching_config None.

(** The signature of the test model (tflite_session_test.cc, BasicTest). *)
Definition serving_default : SignatureDef.t :=
  SignatureDef.mk {[ "x" := TensorInfo.mk "x" "DT_FLOAT" [1; 1] ]}
                  {[ "y" := TensorInfo.mk "y" "DT_FLOAT" [1; 1] ]}
                  "tensorflow/serving/predict".

Definition half_plus_two_dir : string :=
  "/servables/tensorflow/testdata/saved_model_half_plus_two_tflite/00000123".
Definition half_plus_two_bytes : string := "TFL3 half_plus_two".

(** An artifact directory that holds the lightweight model only. *)
Definition tflite_only : Env :=
  env_of [(half_plus_two_dir +:+ "/model.tflite", half_plus_two_bytes)]
         (fun bytes =>
            if String.eqb bytes half_plus_two_bytes
            then (Status_OK, {[ "serving_default" := serving_default ]})
            else (errors.InvalidArgument "Cannot build FlatBufferModel from buffer.", ∅))
         (fun export_dir _ => (NotFound (export_dir +:+ "/saved_model.pb"), MetaGraphDef.empty)).


(** A directory with a full-engine artifact tagged "serve". *)
Definition saved_model_metagraph : MetaGraphDef.t :=
  MetaGraphDef.mk "tags: serve" "node { name: x } node { name: y }" "saver"
    {[ "variables" := "a, b" ]} {[ "serving_default" := serving_default ]}
    ["assets/foo.txt"] "".
Definition saved_model_only : Env :=
  env_of []
         (fun _ => (errors.InvalidArgument "Cannot build FlatBufferModel from buffer.", ∅))
         (fun export_dir tags =>
            if bool_decide (tags = {[ "serve" ]})
            then (Status_OK, saved_model_metagraph)
            else (errors.InvalidArgument "Could not find meta graph def matching supplied tags",
                  MetaGraphDef.empty)).

(** A directory with no artifact at all. *)
Definition empty_dir : Env :=
  env_of []
         (fun _ => (errors.InvalidArgument "Cannot build FlatBufferModel from buffer.", ∅))
         (fun export_dir _ => (NotFound (export_dir +:+ "/saved_model.pb"), MetaGraphDef.empty)).

(** The map the test SimpleSignatureDef hands to [TfLiteSession::Create]. *)
Definition residual_signatures : gmap string SignatureDef.t :=
  {[ "residual_signature" := SignatureDef.mk ∅ ∅ "" ]}.

Definition prefer_tflite_config : SessionBundleConfig :=
  mkConfig "" "" None [] true 1 false false.
Definition stripping_config : SessionBundleConfig :=
  mkConfig "" "" None [] false 1 true false.

End FactoryContract.

(** ** What a load can be observed to do *)

Module FactoryObservations.
Import BundleFactory FactoryContract.

(** The calls the factory's own code makes on the file system (the [Env]
    calls of lines 65-92).  A loader the factory calls does its own reading:
    the full-engine loader is handed the path and opens what it needs under
    it by itself.  That reading is inside the loader, whose call is one
    event of the trace, and is not among these calls. *)
Definition is_own_file_system_call (e : Event) : bool :=
  match e with
  | Call_FilesExist _ _ | Call_GetFileSize _ _ | Call_NewRandomAccessFile _ _
  | Call_Read _ _ _ _ => true
  | _ => false
  end.
Definition own_file_system_calls (tr : list Event) : list Event :=
  List.filter is_own_file_system_call tr.
(** The files such a call names. *)
Definition files_named (e : Event) : list string :=
  match e with
  | Call_FilesExist fnames _ => fnames
  | Call_GetFileSize fname _ | Call_NewRandomAccessFile fname _
  | Call_Read fname _ _ _ => [fname]
  | _ => []
  end.

(** The calls that wrap the session. *)
Definition is_wrap_call (e : Event) : bool :=
  match e with
  | Call_WrapSessionForBatching _ _ _ _ | Call_WrapSession _ => true
  | _ => false
  end.
Definition wrap_calls (tr : list Event) : list Event := List.filter is_wrap_call tr.
(** The status a wrapping call returned. *)
Definition wrap_status (e : Event) : Status :=
  match e with
  | Call_WrapSessionForBatching _ _ _ st | Call_WrapSession st => st
  | _ => Status_OK
  end.

(** The session options and run options the full engine was loaded with. *)
Definition full_engine_options (tr : list Event) : list (SessionOptions * RunOptions.t) :=
  omap (fun e => match e with
                 | Call_LoadSessionBundleOrSavedModelBundle options run_options _ _ _ =>
                     Some (options, run_options)
                 | _ => None
                 end) tr.

(** The bundle of a load after the metadata step (lines 155-166). *)
Definition after_metadata_step (self : SavedModelBundleFactory)
    (bundle : SavedModelBundle) : SavedModelBundle :=
  if remove_unused_fields_from_bundle_metagraph (config_ self)
  then remove_unused_fields bundle else bundle.

(** The longest prefix of [protos] that [FromProto] can parse, parsed. *)
Fixpoint parsable_prefix {TensorProto Tensor : Type}
    (FromProto : TensorProto -> option Tensor)
    (protos : list (NamedTensorProto TensorProto)) : list (string * Tensor) :=
  match protos with
  | [] => []
  | proto :: rest =>
      match FromProto (proto_tensor proto) with
      | Some tensor => (proto_name proto, tensor) :: parsable_prefix FromProto rest
      | None => []
      end
  end.

(** Tensor protos as numerals in text, and a parser that knows the digits. *)
Definition digit_tensor (proto : string) : option Z :=
  if String.eqb proto "1" then Some 1
  else if String.eqb proto "2" then Some 2
  else None.

(** A factory with batching parameters and its scheduler, and a servable. *)
Definition factory_with_scheduler : SavedModelBundleFactory :=
  mkFactory batching_config (Some 0%nat).
Definition half_plus_two_v123 : Metadata :=
  mkMetadata (mkServableId "half_plus_two" 123).

End FactoryObservations.

(** * Properties of the dispatcher *)

Section DispatcherProperties.
Import gpr PredictionService DispatcherContract.

Lemma drop_trace {A} (l k : list A) : drop (length l) (l ++ k) = k.
Proof. induction l; simpl; auto. Qed.

(** [DeadlineToTimeoutMillis] reads the clock and touches nothing else. *)
Lemma DeadlineToTimeoutMillis_runs env deadline w :
  DeadlineToTimeoutMillis env deadline w =
    (timeout_in env deadline (gpr_reads w),
     mkWorld (trace w) (micros_reads w) (gpr_reads w + readings_taken deadline)).
Proof.
  unfold timeout_in, readings_taken, DeadlineToTimeoutMillis, gpr_convert_clock_type.
  destruct w as [tr m g].
  destruct (decide (clock_type deadline = GPR_CLOCK_MONOTONIC)) as [_|_];
    [|destruct ((tv_sec deadline =? INT64_MAX) || (tv_sec deadline =? INT64_MIN));
      [|destruct (decide (GPR_CLOCK_MONOTONIC = GPR_TIMESPAN)) as [E|_];
        [discriminate E|];
        destruct (decide (clock_type deadline = GPR_TIMESPAN)) as [_|_]]];
    unfold bind, ret, gpr_now; cbn [fst snd trace micros_reads gpr_reads];
    repeat f_equal; lia.
Qed.

(** Unfolds one dispatcher call down to the oracles' answers. *)
Ltac unfold_call :=
  unfold metrics_as_specified, timeout_handed_as_specified, status_of, effects_of,
    events_of, dispatch, Predict, Classify, Regress, MultiInference, GetModelMetadata,
    make_run_options, bind, ret, emit, NowMicros;
  cbn [fst snd trace micros_reads gpr_reads].

Ltac normalise_trace :=
  cbn -[to_uint64 timeout_in Z.add Z.mul];
  repeat rewrite <- app_assoc; rewrite ?drop_trace;
  cbn -[to_uint64 timeout_in Z.add Z.mul].

(** Runs the conversion of the deadline, where the call makes one. *)
Ltac run_deadline :=
  try match goal with
      | |- context [DeadlineToTimeoutMillis ?e ?d ?w] =>
          rewrite (DeadlineToTimeoutMillis_runs e d w)
      end;
  cbn [fst snd trace micros_reads gpr_reads].

(** Case analysis on the answer of the servable layer. *)
Ltac destruct_answer :=
  run_deadline;
  match goal with
  | |- context [predictor_Predict ?e ?r ?q] =>
      destruct (predictor_Predict e r q) as [[[] ?] ?]
  | |- context [Classify_impl ?e ?r ?p ?q] =>
      destruct (Classify_impl e r p q) as [[[] ?] ?]
  | |- context [Regress_impl ?e ?r ?p ?q] =>
      destruct (Regress_impl e r p q) as [[[] ?] ?]
  | |- context [RunMultiInferenceWithServerCore ?e ?r ?p ?q] =>
      destruct (RunMultiInferenceWithServerCore e r p q) as [[[] ?] ?]
  | |- context [GetModelMetadata_impl ?e ?q] =>
      destruct (GetModelMetadata_impl e q) as [[[] ?] ?]
  end.

(** C1 (amended).  Predict, Classify and Regress record exactly one latency
    sample and one request-count sample when the call succeeds, and no
    latency sample and one request-count sample when it fails.
    MultiInference and GetModelMetadata record neither kind of sample,
    whatever the outcome. *)
Theorem metrics_recorded_by_operation op svc env context request w :
  match op with
  | OpPredict | OpClassify | OpRegress =>
      metrics_as_specified op svc env context request w
  | OpMultiInference | OpGetModelMetadata =>
      latency_samples (effects_of op svc env context request w) = 0%nat /\
      count_samples (effects_of op svc env context request w) = 0%nat
  end.
Proof.
  destruct op; unfold_call;
    destruct (enforce_session_run_timeout_ svc);
    cbn [fst snd trace micros_reads gpr_reads];
    destruct_answer; normalise_trace; split; reflexivity.
Qed.

Example failed_predict_is_counted_not_timed :
  effects_of OpPredict svc_lenient env_not_found deadline_ahead half_plus_two world0
  = [ Call_Predict RunOptions.default half_plus_two;
      VLOG 1 "Predict failed: Servable not found for request: Latest(half_plus_two)";
      RecordModelRequestCount "half_plus_two"
        (mkStatus error.NOT_FOUND "Servable not found for request: Latest(half_plus_two)") ].
Proof. reflexivity. Qed.

(** C1, as stated, fails for MultiInference: a successful call records no
    sample at all. *)
Lemma multi_inference_records_no_metrics :
  grpc.ok (status_of OpMultiInference svc_lenient env_ok deadline_ahead half_plus_two world0)
    = true /\
  effects_of OpMultiInference svc_lenient env_ok deadline_ahead half_plus_two world0
    = [ Call_RunMultiInferenceWithServerCore RunOptions.default
          (mkThreadPoolOptions None None) half_plus_two ] /\
  ~ metrics_as_specified OpMultiInference svc_lenient env_ok deadline_ahead half_plus_two world0.
Proof.
  split; [reflexivity | split; [reflexivity |]].
  intros [H _]. discriminate H.
Qed.

(** What one Predict call leaves in the trace: the call of the predictor,
    then on success a latency sample keyed by the model name, "Predict" and
    "GRPC" whose value is the time between the two clock readings taken
    around the call (as a uint64), on failure a log line instead, and last
    the request count keyed by the model name and the predictor's status. *)
Theorem Predict_trace svc env context request w :
  let start := NowMicros_at env (micros_reads w) in
  let finish := NowMicros_at env (S (micros_reads w)) in
  let model_name := ModelSpec.name (model_spec request) in
  exists run_options,
    run_options_handed (effects_of OpPredict svc env context request w) = [run_options] /\
    let tf_status := fst (predictor_Predict env run_options request) in
    effects_of OpPredict svc env context request w =
      Call_Predict run_options request
      :: (if ok tf_status
          then RecordRequestLatency model_name "Predict" "GRPC" (to_uint64 (finish - start))
          else VLOG 1 ("Predict failed: " +:+ error_message tf_status))
      :: [RecordModelRequestCount model_name tf_status] /\
    status_of OpPredict svc env context request w = ToGRPCStatus tf_status.
Proof.
  unfold_call. destruct (enforce_session_run_timeout_ svc);
    cbn [fst snd trace micros_reads gpr_reads];
    eexists; (split; [destruct_answer; normalise_trace; reflexivity|]);
    destruct_answer; normalise_trace; split; reflexivity.
Qed.













(** A call without deadline ([gpr_inf_future]) gets the largest timeout. *)
Example no_deadline_gives_largest_timeout :
  run_options_handed
    (effects_of OpClassify svc_enforcing env_ok
       (mkServerContext (gpr_inf_future GPR_CLOCK_MONOTONIC)) half_plus_two world0)
  = [ RunOptions.mk 2147483647 ].
Proof. reflexivity. Qed.




End DispatcherProperties.

(** * Properties of the REST helper *)

Section RestProperties.
Import HttpRestApiUtil.

(** C5.  Supplying both a numeric version and a version label yields
    InvalidArgument, whatever the name and the spec written to; with at most
    one of the two the call succeeds and leaves in the spec the given name
    and the selector supplied (the spec's own selector when none is), the
    signature name untouched. *)
Theorem version_and_label_are_exclusive
    (model_name : string) (model_version : option Z)
    (model_version_label : option string) (model_spec : ModelSpec.t) :
  let result :=
    FillModelSpecWithNameVersionAndLabel model_name model_version
      model_version_label model_spec in
  match model_version, model_version_label with
  | Some v, Some l =>
      code (fst result) = error.INVALID_ARGUMENT /\
      error_message (fst result) =
        "Both model version (" +:+ StrCat_int v +:+
        ") and model version label (" +:+ l +:+ ") cannot be supplied."
  | _, _ =>
      fst result = Status_OK /\
      ModelSpec.name (snd result) = model_name /\
      ModelSpec.choice (snd result) =
        selector_supplied model_version model_version_label (ModelSpec.choice model_spec) /\
      ModelSpec.signature_name (snd result) = ModelSpec.signature_name model_spec
  end.
Proof.
  destruct model_version as [v|], model_version_label as [l|]; cbn; auto.
Qed.

Example both_supplied :
  FillModelSpecWithNameVersionAndLabel "half_plus_two" (Some 123) (Some "canary")
    (ModelSpec.mk "" ModelSpec.VERSION_CHOICE_NOT_SET "")
  = (errors.InvalidArgument
       "Both model version (123) and model version label (canary) cannot be supplied.",
     ModelSpec.mk "half_plus_two" ModelSpec.VERSION_CHOICE_NOT_SET "").
Proof. reflexivity. Qed.

End RestProperties.

(** * Properties of the bundle factory *)

Section FactoryProperties.
Import BundleFactory FactoryContract.

Lemma runs_events_of {A} (m : M World A) w a ev n :
  runs m w a ev n -> events_of m w = ev.
Proof. unfold runs, events_of. intros ->. cbn. apply drop_trace. Qed.

Lemma runs_result {A} (m : M World A) w a ev n : runs m w a ev n -> fst (m w) = a.
Proof. unfold runs. intros ->. reflexivity. Qed.

Lemma runs_ret {A} (a : A) w : runs (ret a) w a [] (schedulers w).
Proof. unfold runs, ret. rewrite app_nil_r. destruct w; reflexivity. Qed.

Lemma runs_ret_at {A} (a : A) tr n : runs (ret a) (mkWorld tr n) a [] n.
Proof. apply (runs_ret a (mkWorld tr n)). Qed.

Lemma runs_emit e w : runs (emit e) w tt [e] (schedulers w).
Proof. reflexivity. Qed.

Lemma runs_bind {A B} (m : M World A) (k : A -> M World B) w a ev1 n1 b ev2 n2 :
  runs m w a ev1 n1 ->
  runs (k a) (mkWorld (trace w ++ ev1) n1) b ev2 n2 ->
  runs (bind m k) w b (ev1 ++ ev2) n2.
Proof.
  unfold runs, bind. intros -> ->. cbn. rewrite app_assoc. reflexivity.
Qed.

Ltac run_ret := first [apply runs_ret_at | apply runs_ret].

Lemma runs_emit_then {B} e (k : M World B) w b ev n :
  runs k (mkWorld (trace w ++ [e]) (schedulers w)) b ev n ->
  runs (emit e ;;; k) w b (e :: ev) n.
Proof. intros H. apply (runs_bind _ _ _ _ _ _ _ _ _ (runs_emit e w) H). Qed.

(** Filling an empty map with the entries of [m], one by one, gives [m]. *)
Lemma fill_from_empty {V} (m : gmap string V) :
  map_fold (fun key v acc => <[key := v]> acc) (∅ : gmap string V) m = m.
Proof.
  apply (map_fold_weak_ind (fun r m => r = m)); [reflexivity|].
  intros i x m' r _ ->. reflexivity.
Qed.

Lemma TfLiteSession_Create_runs env buffer signatures n w :
  runs (TfLiteSession_Create env buffer signatures n) w
    (if ok (fst (tflite_model env buffer))
     then (Status_OK, Some (TfLiteSession buffer n), snd (tflite_model env buffer))
     else (fst (tflite_model env buffer), None, signatures))
    [Call_TfLiteSession_Create buffer n (fst (tflite_model env buffer))]
    (schedulers w).
Proof.
  unfold TfLiteSession_Create.
  destruct (tflite_model env buffer) as [st extracted]; cbn [fst snd].
  apply runs_emit_then.
  destruct (ok st); cbn [negb]; [rewrite fill_from_empty|]; run_ret.
Qed.

Lemma LoadSessionBundleOrSavedModelBundle_runs env opts ro dir tags bundle w :
  let st := fst (load_saved_model env opts ro dir tags) in
  runs (LoadSessionBundleOrSavedModelBundle env opts ro dir tags bundle) w
    (st, if ok st
         then mkBundle (Some (DirectSession dir tags opts))
                       (snd (load_saved_model env opts ro dir tags))
         else bundle)
    [Call_LoadSessionBundleOrSavedModelBundle opts ro dir tags st]
    (schedulers w).
Proof.
  unfold LoadSessionBundleOrSavedModelBundle.
  destruct (load_saved_model env opts ro dir tags) as [st mg]; cbn [fst snd].
  apply runs_emit_then.
  destruct (ok st); run_ret.
Qed.

(** What [LoadTfLiteModel] returns and leaves in the trace. *)
Lemma LoadTfLiteModel_runs env dir bundle n w :
  exists st bundle' ev,
    runs (LoadTfLiteModel env dir bundle n) w (st, bundle') ev (schedulers w) /\
    backends_attempted ev =
      match model_file_bytes env dir with
      | Some model_bytes => [Lightweight model_bytes n]
      | None => []
      end /\
    backends_constructed ev = (if ok st then backends_attempted ev else []) /\
    schedulers_bound ev = [] /\ schedulers_created ev = 0%nat /\
    sessions_wrapped ev = 0%nat /\
    (ok st = true ->
     exists model_bytes,
       model_file_bytes env dir = Some model_bytes /\
       ok (fst (tflite_model env model_bytes)) = true /\
       bundle' = mkBundle (Some (TfLiteSession model_bytes n))
                   (MetaGraphDef.set_signature_def (snd (tflite_model env model_bytes))
                      (meta_graph_def bundle))).
Proof.
  unfold LoadTfLiteModel, model_file_bytes, model_file.
  set (fname := JoinPath dir kTfLiteModelFilename).
  destruct (GetFileSize env fname) as [st1 size]; cbn [fst snd].
  destruct (ok st1) eqn:O1; cbn [negb andb].
  2: { eexists _, _, _. split; [apply runs_emit_then; run_ret|].
       cbn. rewrite O1. repeat split; try reflexivity. discriminate. }
  destruct (ok (NewRandomAccessFile env fname)) eqn:O2; cbn [negb andb].
  2: { eexists _, _, _.
       split; [do 2 apply runs_emit_then; run_ret|].
       cbn. rewrite O2. repeat split; try reflexivity. discriminate. }
  destruct (Read env fname 0 size) as [st3 model_bytes]; cbn [fst snd].
  destruct (ok st3) eqn:O3; cbn [negb andb].
  2: { eexists _, _, _.
       split; [do 3 apply runs_emit_then; run_ret|].
       cbn. rewrite O3. repeat split; try reflexivity. discriminate. }
  pose proof (TfLiteSession_Create_runs env model_bytes
                (MetaGraphDef.signature_def (meta_graph_def bundle)) n) as HC.
  destruct (ok (fst (tflite_model env model_bytes))) eqn:O4.
  - eexists _, _, _. split.
    { do 3 apply runs_emit_then. eapply runs_bind; [apply HC|]. cbn. run_ret. }
    cbn. unfold backend_constructed. cbn. rewrite O4.
    repeat split; try reflexivity.
    intros _. exists model_bytes. repeat split; first [reflexivity | assumption].
  - eexists _, _, _. split.
    { do 3 apply runs_emit_then. eapply runs_bind; [apply HC|]. cbn.
      rewrite O4. cbn. run_ret. }
    cbn. unfold backend_constructed. cbn. rewrite O4.
    repeat split; try reflexivity. discriminate.
Qed.

Lemma TfLiteModelFound_runs env dir w :
  runs (TfLiteModelFound env dir) w
    (FilesExist env [JoinPath dir kTfLiteModelFilename])
    [Call_FilesExist [JoinPath dir kTfLiteModelFilename]
       (FilesExist env [JoinPath dir kTfLiteModelFilename])]
    (schedulers w).
Proof. unfold TfLiteModelFound. apply runs_emit_then. run_ret. Qed.

Lemma load_backend_runs self env metadata path bundle w :
  exists st bundle' ev,
    runs (load_backend self env metadata path bundle) w (st, bundle') ev (schedulers w) /\
    backends_attempted ev =
      (if lightweight_selected self env path
       then match model_file_bytes env path with
            | Some model_bytes =>
                [Lightweight model_bytes (num_tflite_interpreters (config_ self))]
            | None => []
            end
       else [FullEngine path (active_saved_model_tags (config_ self))]) /\
    backends_constructed ev = (if ok st then backends_attempted ev else []) /\
    schedulers_bound ev = [] /\ schedulers_created ev = 0%nat /\
    sessions_wrapped ev = 0%nat /\
    (ok st = true ->
     if lightweight_selected self env path
     then exists model_bytes,
            model_file_bytes env path = Some model_bytes /\
            ok (fst (tflite_model env model_bytes)) = true /\
            bundle' = mkBundle
                        (Some (TfLiteSession model_bytes
                                 (num_tflite_interpreters (config_ self))))
                        (MetaGraphDef.set_signature_def
                           (snd (tflite_model env model_bytes)) (meta_graph_def bundle))
     else bundle' =
            mkBundle
              (Some (DirectSession path (active_saved_model_tags (config_ self))
                       (session_options_for env (config_ self) metadata)))
              (snd (load_saved_model env
                      (session_options_for env (config_ self) metadata)
                      (GetRunOptions env (config_ self)) path
                      (active_saved_model_tags (config_ self))))).
Proof.
  pose proof (LoadSessionBundleOrSavedModelBundle_runs env
                (session_options_for env (config_ self) metadata)
                (GetRunOptions env (config_ self)) path
                (active_saved_model_tags (config_ self)) bundle) as HF.
  cbv zeta in HF.
  unfold load_backend, lightweight_selected, model_file.
  set (fname := JoinPath path kTfLiteModelFilename).
  destruct (prefer_tflite_model (config_ self)); cbn [andb].
  - pose proof (TfLiteModelFound_runs env path w) as HT. fold fname in HT.
    destruct (FilesExist env [fname]) eqn:F.
    + destruct (LoadTfLiteModel_runs env path bundle
                  (num_tflite_interpreters (config_ self))
                  (mkWorld (trace w ++ [Call_FilesExist [fname] true])
                           (schedulers w)))
        as (st & b' & ev & Hr & Ha & Hc & Hb & Hcr & Hw & Hok).
      exists st, b', ([Call_FilesExist [fname] true] ++ ev)%list.
      split.
      { eapply runs_bind; [exact HT|]. exact Hr. }
      repeat split; assumption.
    + eexists _, _, _. split.
      { eapply runs_bind; [exact HT|]. apply (HF (mkWorld _ _)). }
      cbn. unfold backend_constructed. cbn.
      destruct (ok _); repeat split; try reflexivity; discriminate.
  - eexists _, _, _. split; [apply HF|].
    cbn. unfold backend_constructed. cbn.
    destruct (ok _); repeat split; try reflexivity; discriminate.
Qed.


Ltac close_facts :=
  repeat match goal with
         | |- _ /\ _ => split
         | |- Forall _ _ => repeat constructor
         | |- is_Some _ -> _ => intros [? ?]
         | |- _ -> _ => intro
         | H : None = Some _ |- _ => discriminate H
         | H : Some _ = None |- _ => discriminate H
         | |- _ => reflexivity
         end.

Lemma wrap_bundle_session_runs self env bundle w :
  exists st wrapped ev,
    runs (wrap_bundle_session self env bundle) w
      (st, mkBundle wrapped (meta_graph_def bundle)) ev (schedulers w) /\
    backends_attempted ev = [] /\ backends_constructed ev = [] /\
    schedulers_created ev = 0%nat /\
    Forall (fun b => batch_scheduler_ self = Some b) (schedulers_bound ev) /\
    (is_Some (batching_parameters (config_ self)) -> batch_scheduler_ self = None ->
     st = errors.Internal "batch_scheduler_ not set" /\
     sessions_wrapped ev = 0%nat /\ wrapped = session bundle) /\
    backend_of <$> wrapped = backend_of <$> session bundle.
Proof.
  unfold wrap_bundle_session. destruct bundle as [s mg]. cbn [session meta_graph_def].
  destruct (batching_parameters (config_ self)) as [params|].
  - destruct (batch_scheduler_ self) as [sched|].
    + unfold WrapSessionForBatching.
      set (sigs := GetSignatureDefs _). cbv zeta.
      destruct (ok (wrap_session_for_batching env params sigs s)) eqn:O.
      all: eexists _, _, _; split;
        [ apply runs_emit_then; eapply runs_bind;
          [ apply runs_emit_then; run_ret | cbn; run_ret ]
        | cbn; close_facts; destruct s; reflexivity ].
    + eexists _, _, _. split; [apply runs_emit_then; run_ret|].
      cbn. close_facts.
  - unfold WrapSession. cbv zeta.
    destruct (ok (wrap_session env)) eqn:O.
    all: eexists _, _, _; split;
      [ eapply runs_bind; [ apply runs_emit_then; run_ret | cbn; run_ret ]
      | cbn; close_facts; destruct s; reflexivity ].
Qed.

Lemma backends_attempted_app ev1 ev2 :
  backends_attempted (ev1 ++ ev2) = (backends_attempted ev1 ++ backends_attempted ev2)%list.
Proof. apply omap_app. Qed.

Lemma backends_constructed_app ev1 ev2 :
  backends_constructed (ev1 ++ ev2)
  = (backends_constructed ev1 ++ backends_constructed ev2)%list.
Proof. apply omap_app. Qed.

Lemma schedulers_bound_app ev1 ev2 :
  schedulers_bound (ev1 ++ ev2) = (schedulers_bound ev1 ++ schedulers_bound ev2)%list.
Proof. apply omap_app. Qed.

Lemma schedulers_created_app ev1 ev2 :
  schedulers_created (ev1 ++ ev2) = (schedulers_created ev1 + schedulers_created ev2)%nat.
Proof. unfold schedulers_created. rewrite List.filter_app. apply length_app. Qed.

Lemma sessions_wrapped_app ev1 ev2 :
  sessions_wrapped (ev1 ++ ev2) = (sessions_wrapped ev1 + sessions_wrapped ev2)%nat.
Proof. unfold sessions_wrapped. rewrite List.filter_app. apply length_app. Qed.

(** One load, step by step: what it returns, and what it leaves in the
    trace, in terms of the outcome [loaded] of its backend-loading step. *)
Lemma InternalCreateSavedModelBundle_runs self env metadata path w :
  exists ev,
    runs (InternalCreateSavedModelBundle self env metadata path) w
      (Load self env metadata path w) ev (schedulers w) /\
    backends_attempted ev =
      (if lightweight_selected self env path
       then match model_file_bytes env path with
            | Some model_bytes =>
                [Lightweight model_bytes (num_tflite_interpreters (config_ self))]
            | None => []
            end
       else [FullEngine path (active_saved_model_tags (config_ self))]) /\
    backends_constructed ev =
      (if ok (fst (loaded self env metadata path w)) then backends_attempted ev else []) /\
    schedulers_created ev = 0%nat /\
    Forall (fun b => batch_scheduler_ self = Some b) (schedulers_bound ev) /\
    (ok (fst (loaded self env metadata path w)) = false ->
     Load self env metadata path w = loaded self env metadata path w) /\
    (ok (fst (loaded self env metadata path w)) = true ->
     meta_graph_def (snd (Load self env metadata path w)) =
       (if remove_unused_fields_from_bundle_metagraph (config_ self)
        then signature_defs_only (meta_graph_def (snd (loaded self env metadata path w)))
        else meta_graph_def (snd (loaded self env metadata path w))) /\
     backend_of <$> session (snd (Load self env metadata path w)) =
       backend_of <$> session (snd (loaded self env metadata path w)) /\
     (is_Some (batching_parameters (config_ self)) -> batch_scheduler_ self = None ->
      fst (Load self env metadata path w) = errors.Internal "batch_scheduler_ not set" /\
      sessions_wrapped ev = 0%nat /\
      session (snd (Load self env metadata path w)) =
        session (snd (loaded self env metadata path w)))).
Proof.
  destruct (load_backend_runs self env metadata path new_SavedModelBundle w)
    as (st0 & b0 & ev0 & Hr0 & Ha0 & Hc0 & Hb0 & Hcr0 & Hw0 & _).
  assert (Hloaded : loaded self env metadata path w = (st0, b0))
    by (unfold loaded; exact (runs_result _ _ _ _ _ Hr0)).
  rewrite Hloaded. cbn [fst snd].
  destruct (ok st0) eqn:O0.
  - set (b1 := if remove_unused_fields_from_bundle_metagraph (config_ self)
               then remove_unused_fields b0 else b0).
    destruct (wrap_bundle_session_runs self env b1
                (mkWorld (trace w ++ ev0) (schedulers w)))
      as (st & wrapped & ev1 & Hr1 & Ha1 & Hc1 & Hcr1 & Hb1 & Hnone & Hbackend).
    assert (Hrun : runs (InternalCreateSavedModelBundle self env metadata path) w
                     (st, mkBundle wrapped (meta_graph_def b1)) (ev0 ++ ev1)
                     (schedulers w)).
    { unfold InternalCreateSavedModelBundle. eapply runs_bind; [exact Hr0|].
      cbn. rewrite O0. cbn. exact Hr1. }
    assert (HLoad : Load self env metadata path w
                    = (st, mkBundle wrapped (meta_graph_def b1)))
      by (unfold Load; exact (runs_result _ _ _ _ _ Hrun)).
    rewrite HLoad. cbn [fst snd session meta_graph_def].
    exists (ev0 ++ ev1)%list. split; [exact Hrun|].
    rewrite backends_attempted_app, backends_constructed_app, schedulers_created_app,
      schedulers_bound_app, sessions_wrapped_app.
    rewrite Ha1, Hc1, Hcr1, Hcr0, Hb0, Hw0, Hc0, !app_nil_r. cbn [app Nat.add].
    assert (Hsession : session b1 = session b0)
      by (unfold b1; destruct (remove_unused_fields_from_bundle_metagraph _); reflexivity).
    split; [exact Ha0|]. split; [reflexivity|]. split; [reflexivity|].
    split; [exact Hb1|]. split; [discriminate|].
    intros _. split; [|split].
    + unfold b1. destruct (remove_unused_fields_from_bundle_metagraph _); reflexivity.
    + rewrite Hbackend, Hsession. reflexivity.
    + intros H1 H2. destruct (Hnone H1 H2) as (-> & -> & ->).
      rewrite Hsession. repeat split; reflexivity.
  - assert (Hrun : runs (InternalCreateSavedModelBundle self env metadata path) w
                     (st0, b0) (ev0 ++ []) (schedulers w)).
    { unfold InternalCreateSavedModelBundle. eapply runs_bind; [exact Hr0|].
      cbn. rewrite O0. cbn. run_ret. }
    rewrite app_nil_r in Hrun.
    assert (HLoad : Load self env metadata path w = (st0, b0))
      by (unfold Load; exact (runs_result _ _ _ _ _ Hrun)).
    rewrite HLoad. exists ev0. split; [exact Hrun|].
    rewrite Hb0. repeat split; try assumption; try discriminate; constructor.
Qed.

Lemma loaded_bundle self env metadata path w :
  ok (fst (loaded self env metadata path w)) = true ->
  if lightweight_selected self env path
  then exists model_bytes,
         model_file_bytes env path = Some model_bytes /\
         ok (fst (tflite_model env model_bytes)) = true /\
         snd (loaded self env metadata path w) =
           mkBundle
             (Some (TfLiteSession model_bytes (num_tflite_interpreters (config_ self))))
             (MetaGraphDef.set_signature_def (snd (tflite_model env model_bytes))
                MetaGraphDef.empty)
  else snd (loaded self env metadata path w) =
         mkBundle
           (Some (DirectSession path (active_saved_model_tags (config_ self))
                    (session_options_for env (config_ self) metadata)))
           (snd (load_saved_model env
                   (session_options_for env (config_ self) metadata)
                   (GetRunOptions env (config_ self)) path
                   (active_saved_model_tags (config_ self)))).
Proof.
  destruct (load_backend_runs self env metadata path new_SavedModelBundle w)
    as (st0 & b0 & ev0 & Hr0 & _ & _ & _ & _ & _ & Hok).
  unfold loaded. rewrite (runs_result _ _ _ _ _ Hr0). exact Hok.
Qed.

Lemma Load_ok_loaded_ok self env metadata path w :
  ok (fst (Load self env metadata path w)) = true ->
  ok (fst (loaded self env metadata path w)) = true.
Proof.
  destruct (InternalCreateSavedModelBundle_runs self env metadata path w)
    as (ev & _ & _ & _ & _ & _ & Hfail & _).
  destruct (ok (fst (loaded self env metadata path w))) eqn:O; [reflexivity|].
  rewrite (Hfail eq_refl), O. discriminate.
Qed.

Lemma Load_events_runs self env metadata path w ev n a :
  runs (InternalCreateSavedModelBundle self env metadata path) w a ev n ->
  Load_events self env metadata path w = ev.
Proof. apply runs_events_of. Qed.

Lemma attempted_and_constructed self env metadata path w :
  backends_attempted (Load_events self env metadata path w) =
    (if lightweight_selected self env path
     then match model_file_bytes env path with
          | Some model_bytes =>
              [Lightweight model_bytes (num_tflite_interpreters (config_ self))]
          | None => []
          end
     else [FullEngine path (active_saved_model_tags (config_ self))]) /\
  backends_constructed (Load_events self env metadata path w) =
    (if ok (fst (loaded self env metadata path w))
     then backends_attempted (Load_events self env metadata path w)
     else []).
Proof.
  destruct (InternalCreateSavedModelBundle_runs self env metadata path w)
    as (ev & Hrun & Ha & Hc & _).
  rewrite (Load_events_runs _ _ _ _ _ _ _ _ Hrun). split; assumption.
Qed.




Lemma runs_new_scheduler tr n : runs new_scheduler (mkWorld tr n) n [] (S n).
Proof. unfold runs, new_scheduler. cbn. rewrite app_nil_r. reflexivity. Qed.

Lemma Create_runs env config w :
  exists r ev n,
    runs (Create env config) w r ev n /\
    forall st factory, r = (st, Some factory) ->
      st = Status_OK /\ config_ factory = config /\
      match batching_parameters config with
      | Some _ => batch_scheduler_ factory = Some (schedulers w) /\
                  n = S (schedulers w) /\ schedulers_created ev = 1%nat
      | None => batch_scheduler_ factory = None /\
                n = schedulers w /\ schedulers_created ev = 0%nat
      end.
Proof.
  unfold Create. destruct (batching_parameters config) as [params|].
  - unfold CreateBatchScheduler. cbv zeta.
    destruct (ok (create_batch_scheduler env params)) eqn:O.
    + eexists _, _, _. split.
      { eapply runs_bind.
        - apply runs_emit_then. eapply runs_bind; [apply runs_new_scheduler|].
          cbn. run_ret.
        - cbn. rewrite O. cbn. run_ret. }
      intros st factory [= <- <-]. cbn. rewrite O. repeat split; reflexivity.
    + eexists _, _, _. split.
      { eapply runs_bind.
        - apply runs_emit_then. run_ret.
        - cbn. rewrite O. cbn. run_ret. }
      intros st factory [=].
  - eexists _, _, _. split; [run_ret|].
    intros st factory [= <- <-]. repeat split; reflexivity.
Qed.

(** C3 (amended).  A load whose configuration includes batching parameters
    and whose factory holds no scheduler never succeeds: when its
    backend-loading step succeeds it fails with the Internal error
    "batch_scheduler_ not set", without wrapping the session, and when the
    backend-loading step fails it returns the error of that step.  A factory
    that [Create] returns for a configuration with batching parameters holds
    the one scheduler constructed by that call; no load constructs a
    scheduler, and every batching adapter a load builds is bound to the
    scheduler the factory holds. *)
Theorem scheduler_of_factory :
  (forall self env metadata path w,
     is_Some (batching_parameters (config_ self)) ->
     batch_scheduler_ self = None ->
     ok (fst (Load self env metadata path w)) = false /\
     (ok (fst (loaded self env metadata path w)) = true ->
      fst (Load self env metadata path w) = errors.Internal "batch_scheduler_ not set" /\
      sessions_wrapped (Load_events self env metadata path w) = 0%nat /\
      session (snd (Load self env metadata path w)) =
        session (snd (loaded self env metadata path w))) /\
     (ok (fst (loaded self env metadata path w)) = false ->
      Load self env metadata path w = loaded self env metadata path w)) /\
  (forall env config w0 st factory,
     fst (Create env config w0) = (st, Some factory) ->
     config_ factory = config /\
     (is_Some (batching_parameters config) ->
      batch_scheduler_ factory = Some (schedulers w0) /\
      schedulers (snd (Create env config w0)) = S (schedulers w0) /\
      schedulers_created (events_of (Create env config) w0) = 1%nat) /\
     forall env' metadata path w,
       schedulers (snd (InternalCreateSavedModelBundle factory env' metadata path w))
         = schedulers w /\
       schedulers_created (Load_events factory env' metadata path w) = 0%nat /\
       Forall (fun b => batch_scheduler_ factory = Some b)
              (schedulers_bound (Load_events factory env' metadata path w))).
Proof.
  split.
  - intros self env metadata path w Hbatching Hnone.
    destruct (InternalCreateSavedModelBundle_runs self env metadata path w)
      as (ev & Hrun & _ & _ & _ & _ & Hfail & Hok).
    rewrite (Load_events_runs _ _ _ _ _ _ _ _ Hrun).
    split; [|split].
    + destruct (ok (fst (loaded self env metadata path w))) eqn:O.
      * destruct (Hok eq_refl) as (_ & _ & H).
        destruct (H Hbatching Hnone) as (-> & _). reflexivity.
      * rewrite (Hfail eq_refl). exact O.
    + intros O. destruct (Hok O) as (_ & _ & H). exact (H Hbatching Hnone).
    + exact Hfail.
  - intros env config w0 st factory HCreate.
    destruct (Create_runs env config w0) as (r & ev & n & Hrun & Hr).
    rewrite (runs_result _ _ _ _ _ Hrun) in HCreate. subst r.
    destruct (Hr st factory eq_refl) as (_ & Hconfig & Hsched).
    rewrite (runs_events_of _ _ _ _ _ Hrun).
    split; [exact Hconfig|]. split.
    + intros [params Hparams]. rewrite Hparams in Hsched.
      destruct Hsched as (? & ? & ?).
      unfold runs in Hrun. rewrite Hrun. cbn. repeat split; assumption.
    + intros env' metadata path w.
      destruct (InternalCreateSavedModelBundle_runs factory env' metadata path w)
        as (ev' & Hrun' & _ & _ & Hcreated & Hbound & _).
      rewrite (Load_events_runs _ _ _ _ _ _ _ _ Hrun').
      unfold runs in Hrun'. rewrite Hrun'. cbn. repeat split; assumption.
Qed.

Lemma scheduler_of_factory_witness :
  is_Some (batching_parameters (config_ factory_without_scheduler)) /\
  batch_scheduler_ factory_without_scheduler = None /\
  ok (fst (loaded factory_without_scheduler saved_model_only None half_plus_two_dir world0))
    = true /\
  fst (Load factory_without_scheduler saved_model_only None half_plus_two_dir world0)
    = errors.Internal "batch_scheduler_ not set".
Proof.
  assert (H1 : is_Some (batching_parameters (config_ factory_without_scheduler)))
    by (eexists; reflexivity).
  assert (H2 : batch_scheduler_ factory_without_scheduler = None) by reflexivity.
  assert (H3 : ok (fst (loaded factory_without_scheduler saved_model_only None
                          half_plus_two_dir world0)) = true)
    by (vm_compute; reflexivity).
  split; [exact H1|]. split; [exact H2|]. split; [exact H3|].
  exact (proj1 (proj1 (proj2 (proj1 scheduler_of_factory factory_without_scheduler
                                saved_model_only None half_plus_two_dir world0 H1 H2))
                  H3)).
Defined.

(** C3, as stated, fails when the backend cannot be loaded: the load of a
    directory without artifact, by a factory with batching parameters and
    no scheduler, returns the loader's NOT_FOUND, not Internal. *)
Lemma missing_scheduler_after_failed_load :
  is_Some (batching_parameters (config_ factory_without_scheduler)) /\
  batch_scheduler_ factory_without_scheduler = None /\
  fst (Load factory_without_scheduler empty_dir None half_plus_two_dir world0)
    = NotFound (half_plus_two_dir +:+ "/saved_model.pb") /\
  ~ missing_scheduler_as_specified factory_without_scheduler empty_dir None
      half_plus_two_dir world0.
Proof.
  split; [eexists; reflexivity|]. split; [reflexivity|].
  split; [vm_compute; reflexivity|].
  unfold missing_scheduler_as_specified. vm_compute. discriminate.
Qed.

(** C6.  After a successful load with the strip flag set, the bundle's
    metadata is a fresh message that holds the signature definitions of the
    metadata the backend-loading step produced, every other field at its
    default; without the flag it is the loaded metadata, unchanged. *)
Theorem unused_metadata_is_dropped self env metadata path w :
  ok (fst (Load self env metadata path w)) = true ->
  meta_graph_def (snd (Load self env metadata path w)) =
    if remove_unused_fields_from_bundle_metagraph (config_ self)
    then MetaGraphDef.set_signature_def
           (MetaGraphDef.signature_def
              (meta_graph_def (snd (loaded self env metadata path w))))
           MetaGraphDef.empty
    else meta_graph_def (snd (loaded self env metadata path w)).
Proof.
  intros HLoad. pose proof (Load_ok_loaded_ok _ _ _ _ _ HLoad) as Hl.
  destruct (InternalCreateSavedModelBundle_runs self env metadata path w)
    as (ev & _ & _ & _ & _ & _ & _ & Hok).
  destruct (Hok Hl) as (Hmeta & _). exact Hmeta.
Qed.

Lemma unused_metadata_is_dropped_witness :
  ok (fst (Load (mkFactory stripping_config None) saved_model_only None
             half_plus_two_dir world0)) = true /\
  meta_graph_def (snd (loaded (mkFactory stripping_config None) saved_model_only None
                         half_plus_two_dir world0)) = saved_model_metagraph /\
  meta_graph_def (snd (Load (mkFactory stripping_config None) saved_model_only None
                         half_plus_two_dir world0))
  = MetaGraphDef.mk "" "" "" ∅ {[ "serving_default" := serving_default ]} [] "".
Proof.
  assert (H : ok (fst (Load (mkFactory stripping_config None) saved_model_only None
                         half_plus_two_dir world0)) = true)
    by (vm_compute; reflexivity).
  split; [exact H|]. split; [vm_compute; reflexivity|].
  rewrite (unused_metadata_is_dropped _ _ _ _ _ H).
  vm_compute. reflexivity.
Defined.

(** C7.  A successful load with prefer-lightweight set, from a path that
    holds 'model.tflite', returns a bundle whose session runs on the
    lightweight backend, built from the bytes of that file with the
    configured number of interpreters, and whose signature map is exactly
    the map of signatures extracted from those bytes. *)
Theorem lightweight_bundle_signatures self env metadata path w :
  prefer_tflite_model (config_ self) = true ->
  FilesExist env [model_file path] = true ->
  ok (fst (Load self env metadata path w)) = true ->
  exists model_bytes,
    model_file_bytes env path = Some model_bytes /\
    backend_of <$> session (snd (Load self env metadata path w)) =
      Some (TfLiteSession model_bytes (num_tflite_interpreters (config_ self))) /\
    MetaGraphDef.signature_def (meta_graph_def (snd (Load self env metadata path w))) =
      snd (tflite_model env model_bytes).
Proof.
  intros Hprefer Hfound HLoad.
  pose proof (Load_ok_loaded_ok _ _ _ _ _ HLoad) as Hl.
  destruct (InternalCreateSavedModelBundle_runs self env metadata path w)
    as (ev & _ & _ & _ & _ & _ & _ & Hok).
  destruct (Hok Hl) as (Hmeta & Hbackend & _).
  pose proof (loaded_bundle _ _ _ _ _ Hl) as Hb.
  unfold lightweight_selected in Hb. rewrite Hprefer, Hfound in Hb. cbn [andb] in Hb.
  destruct Hb as (model_bytes & Hbytes & _ & Hloaded).
  exists model_bytes. rewrite Hbackend, Hmeta, Hloaded.
  split; [exact Hbytes|]. split; [reflexivity|].
  destruct (remove_unused_fields_from_bundle_metagraph (config_ self)); reflexivity.
Qed.

(** The literal case of the spec: one signature, "serving_default", with one
    input "x" and one output "y". *)
Lemma lightweight_bundle_signatures_witness :
  prefer_tflite_model (config_ (mkFactory prefer_tflite_config None)) = true /\
  FilesExist tflite_only [model_file half_plus_two_dir] = true /\
  ok (fst (Load (mkFactory prefer_tflite_config None) tflite_only None
             half_plus_two_dir world0)) = true /\
  exists model_bytes,
    model_file_bytes tflite_only half_plus_two_dir = Some model_bytes /\
    backend_of <$> session (snd (Load (mkFactory prefer_tflite_config None) tflite_only
                                   None half_plus_two_dir world0)) =
      Some (TfLiteSession model_bytes 1) /\
    MetaGraphDef.signature_def
      (meta_graph_def (snd (Load (mkFactory prefer_tflite_config None) tflite_only None
                              half_plus_two_dir world0))) =
      snd (tflite_model tflite_only model_bytes).
Proof.
  assert (H1 : prefer_tflite_model (config_ (mkFactory prefer_tflite_config None)) = true)
    by reflexivity.
  assert (H2 : FilesExist tflite_only [model_file half_plus_two_dir] = true)
    by (vm_compute; reflexivity).
  assert (H3 : ok (fst (Load (mkFactory prefer_tflite_config None) tflite_only None
                          half_plus_two_dir world0)) = true)
    by (vm_compute; reflexivity).
  split; [exact H1|]. split; [exact H2|]. split; [exact H3|].
  exact (lightweight_bundle_signatures (mkFactory prefer_tflite_config None) tflite_only
           None half_plus_two_dir world0 H1 H2 H3).
Defined.

Example half_plus_two_tflite_bundle :
  Load (mkFactory prefer_tflite_config None) tflite_only None half_plus_two_dir world0
  = (Status_OK,
     mkBundle (Some (SessionWrapper (TfLiteSession half_plus_two_bytes 1)))
              (MetaGraphDef.mk "" "" "" ∅ {[ "serving_default" := serving_default ]} [] "")).
Proof. vm_compute. reflexivity. Qed.

Lemma active_saved_model_tags_spec config :
  active_saved_model_tags config = tags_as_specified config.
Proof.
  unfold active_saved_model_tags, tags_as_specified.
  destruct (saved_model_tags config) as [|tag tags].
  - cbn [list_to_set foldr]. rewrite bool_decide_eq_true_2 by reflexivity.
    apply (right_id_L ∅ (∪)).
  - rewrite bool_decide_eq_false_2; [reflexivity|].
    intros H. assert (Hin : tag ∈ (list_to_set (tag :: tags) : gset string))
      by (apply elem_of_list_to_set; left).
    rewrite H in Hin. set_solver.
Qed.

(** C8.  The active tag set is the set of the configured saved-model tags
    when there are any, and the single tag "serve" when there are none; a
    load never asks the full engine for any other tag set, and it asks for
    this one whenever the lightweight backend is not selected. *)
Theorem active_tags_of_load self env metadata path w :
  active_saved_model_tags (config_ self) =
    match saved_model_tags (config_ self) with
    | [] => {[ "serve" ]}
    | tags => list_to_set tags
    end /\
  Forall (fun b => match b with
                   | FullEngine export_dir tags =>
                       export_dir = path /\ tags = active_saved_model_tags (config_ self)
                   | Lightweight _ _ => True
                   end)
         (backends_attempted (Load_events self env metadata path w)) /\
  (lightweight_selected self env path = false ->
   backends_attempted (Load_events self env metadata path w) =
     [FullEngine path (active_saved_model_tags (config_ self))]).
Proof.
  split; [apply active_saved_model_tags_spec|].
  destruct (attempted_and_constructed self env metadata path w) as [Ha _].
  rewrite Ha. split.
  - destruct (lightweight_selected self env path).
    + destruct (model_file_bytes env path); repeat constructor.
    + repeat constructor.
  - intros ->. reflexivity.
Qed.

Lemma active_tags_of_load_witness :
  lightweight_selected (mkFactory default_config None) saved_model_only
    half_plus_two_dir = false /\
  backends_attempted (Load_events (mkFactory default_config None) saved_model_only None
                        half_plus_two_dir world0)
  = [FullEngine half_plus_two_dir
       (active_saved_model_tags (config_ (mkFactory default_config None)))].
Proof.
  assert (H : lightweight_selected (mkFactory default_config None) saved_model_only
                half_plus_two_dir = false) by reflexivity.
  split; [exact H|].
  exact (proj2 (proj2 (active_tags_of_load (mkFactory default_config None)
                         saved_model_only None half_plus_two_dir world0)) H).
Defined.

Example default_tag_is_serve :
  backends_attempted (Load_events (mkFactory default_config None) saved_model_only None
                        half_plus_two_dir world0)
  = [FullEngine half_plus_two_dir {[ "serve" ]}].
Proof. vm_compute. reflexivity. Qed.

(** C9.  After a successful [TfLiteSession::Create] the caller's signature
    map is exactly the map of signatures extracted from the model bytes:
    it does not depend on what the map held before the call, and a key
    that is not among the extracted signatures is absent from it. *)
Theorem Create_replaces_signatures env buffer signatures n w :
  ok (fst (fst (fst (TfLiteSession_Create env buffer signatures n w)))) = true ->
  snd (fst (TfLiteSession_Create env buffer signatures n w)) = snd (tflite_model env buffer) /\
  (forall signatures' w',
     snd (fst (TfLiteSession_Create env buffer signatures' n w'))
     = snd (fst (TfLiteSession_Create env buffer signatures n w))) /\
  (forall key, snd (tflite_model env buffer) !! key = None ->
     snd (fst (TfLiteSession_Create env buffer signatures n w)) !! key = None).
Proof.
  assert (Hres : forall sigs0 w0,
    fst (TfLiteSession_Create env buffer sigs0 n w0) =
      if ok (fst (tflite_model env buffer))
      then (Status_OK, Some (TfLiteSession buffer n), snd (tflite_model env buffer))
      else (fst (tflite_model env buffer), None, sigs0)).
  { intros sigs0 w0.
    exact (runs_result _ _ _ _ _ (TfLiteSession_Create_runs env buffer sigs0 n w0)). }
  rewrite (Hres signatures w).
  destruct (ok (fst (tflite_model env buffer))) eqn:O; cbn [fst snd].
  - intros _. split; [reflexivity|]. split.
    + intros signatures' w'. rewrite (Hres signatures' w'). reflexivity.
    + intros key Hkey. exact Hkey.
  - rewrite O. discriminate.
Qed.

(** The test SimpleSignatureDef: an entry put in the map before the call is
    gone after it. *)
Lemma Create_replaces_signatures_witness :
  ok (fst (fst (fst (TfLiteSession_Create tflite_only half_plus_two_bytes
                       residual_signatures 1 world0)))) = true /\
  snd (fst (TfLiteSession_Create tflite_only half_plus_two_bytes
              residual_signatures 1 world0)) = {[ "serving_default" := serving_default ]} /\
  snd (fst (TfLiteSession_Create tflite_only half_plus_two_bytes
              residual_signatures 1 world0)) !! "residual_signature" = None.
Proof.
  assert (H : ok (fst (fst (fst (TfLiteSession_Create tflite_only half_plus_two_bytes
                                   residual_signatures 1 world0)))) = true)
    by (vm_compute; reflexivity).
  split; [exact H|].
  destruct (Create_replaces_signatures tflite_only half_plus_two_bytes
              residual_signatures 1 world0 H) as (Hmap & _ & Habsent).
  split.
  - rewrite Hmap. vm_compute. reflexivity.
  - apply Habsent. vm_compute. reflexivity.
Defined.

End FactoryProperties.

(** * Further properties of the dispatcher *)

Section DispatcherFurther.
Import gpr PredictionService DispatcherContract DispatcherObservations.

Ltac unfold_op :=
  unfold status_of, effects_of, events_of, dispatch, Predict, Classify, Regress,
    MultiInference, GetModelMetadata, make_run_options, bind, ret, emit, NowMicros;
  cbn [fst snd trace micros_reads gpr_reads].

Ltac tidy :=
  cbn -[to_uint64 timeout_in Z.add Z.mul Z.sub];
  repeat rewrite <- app_assoc; rewrite ?drop_trace;
  cbn -[to_uint64 timeout_in Z.add Z.mul Z.sub].

(** Case analysis on whether the servable layer answered OK. *)
Ltac on_answer :=
  try match goal with
      | |- context [DeadlineToTimeoutMillis ?e ?d ?w] =>
          rewrite (DeadlineToTimeoutMillis_runs e d w)
      end;
  cbn [fst snd trace micros_reads gpr_reads];
  match goal with
  | |- context [predictor_Predict ?e ?r ?q] =>
      destruct (predictor_Predict e r q) as [[[] ?] ?] eqn:?
  | |- context [Classify_impl ?e ?r ?p ?q] =>
      destruct (Classify_impl e r p q) as [[[] ?] ?] eqn:?
  | |- context [Regress_impl ?e ?r ?p ?q] =>
      destruct (Regress_impl e r p q) as [[[] ?] ?] eqn:?
  | |- context [RunMultiInferenceWithServerCore ?e ?r ?p ?q] =>
      destruct (RunMultiInferenceWithServerCore e r p q) as [[[] ?] ?] eqn:?
  | |- context [GetModelMetadata_impl ?e ?q] =>
      destruct (GetModelMetadata_impl e q) as [[[] ?] ?] eqn:?
  end.

(** Every operation calls the servable layer exactly once, whatever the
    outcome, and returns what that one call answered: its status converted
    to a gRPC status, and its response. *)
Theorem one_servable_call_per_request op svc env context request w :
  exists call st response,
    servable_calls (effects_of op svc env context request w) = [call] /\
    answer_to env call = Some (st, response) /\
    fst (dispatch op svc env context request w) = (ToGRPCStatus st, response).
Proof.
  destruct op; unfold_op;
    destruct (enforce_session_run_timeout_ svc);
    cbn [fst snd trace micros_reads gpr_reads];
    on_answer; tidy;
    (eexists _, _, _; split; [reflexivity|]; split;
     [ cbn; match goal with H : _ = (_, _) |- _ => rewrite H end; reflexivity
     | reflexivity ]).
Qed.

(** Classify, Regress and MultiInference hand the servable layer the two
    pools of the thread-pool factory when one is configured, and no pool
    otherwise; Predict and GetModelMetadata never hand over a pool, with or
    without a factory. *)
Theorem thread_pools_handed op svc env context request w :
  pools_handed (effects_of op svc env context request w) =
    match op with
    | OpPredict | OpGetModelMetadata => []
    | OpClassify | OpRegress | OpMultiInference =>
        [ match thread_pool_factory_ svc with
          | Some factory =>
              mkThreadPoolOptions (Some (GetInterOpThreadPool factory))
                                  (Some (GetIntraOpThreadPool factory))
          | None => mkThreadPoolOptions None None
          end ]
    end.
Proof.
  destruct op; unfold_op;
    destruct (enforce_session_run_timeout_ svc);
    cbn [fst snd trace micros_reads gpr_reads];
    on_answer; tidy; destruct (thread_pool_factory_ svc); reflexivity.
Qed.

(** Without timeout enforcement the deadline plays no part: the call
    returns the same result, leaves the same trace and reads the gRPC clock
    not at all, whatever the context; GetModelMetadata ignores the context
    and the service's settings altogether. *)
Theorem deadline_ignored_without_enforcement op svc env context request w :
  enforce_session_run_timeout_ svc = false \/ op = OpGetModelMetadata ->
  (forall context',
     dispatch op svc env context' request w = dispatch op svc env context request w) /\
  gpr_reads (snd (dispatch op svc env context request w)) = gpr_reads w /\
  (op = OpGetModelMetadata ->
   forall svc' context',
     dispatch op svc' env context' request w = dispatch op svc env context request w).
Proof.
  intros [Hoff | ->].
  - destruct op; unfold_op; rewrite ?Hoff;
      cbn [fst snd trace micros_reads gpr_reads];
      (split; [reflexivity|]); (split; [on_answer; reflexivity|]);
      try discriminate; intros _ svc' context'; reflexivity.
  - unfold_op. split; [reflexivity|]. split; [on_answer; reflexivity|].
    intros _ svc' context'. reflexivity.
Qed.

Lemma deadline_ignored_without_enforcement_witness :
  (enforce_session_run_timeout_ svc_lenient = false \/ OpRegress = OpGetModelMetadata) /\
  dispatch OpRegress svc_lenient env_ok deadline_past half_plus_two world0
  = dispatch OpRegress svc_lenient env_ok deadline_ahead half_plus_two world0.
Proof.
  assert (H : enforce_session_run_timeout_ svc_lenient = false
              \/ OpRegress = OpGetModelMetadata) by (left; reflexivity).
  split; [exact H|].
  exact (proj1 (deadline_ignored_without_enforcement OpRegress svc_lenient env_ok
                  deadline_ahead half_plus_two world0 H) deadline_past).
Defined.

Lemma to_uint64_difference (start finish : Z) :
  0 <= start < 2 ^ 64 -> 0 <= finish < 2 ^ 64 ->
  to_uint64 (finish - start) =
    if start <=? finish then finish - start else finish - start + 2 ^ 64.
Proof.
  intros Hs Hf. unfold to_uint64.
  destruct (Z.leb_spec start finish).
  - apply Z.mod_small. lia.
  - rewrite <- (Z_mod_plus_full (finish - start) 1 (2 ^ 64)).
    apply Z.mod_small. lia.
Qed.

(** Predict, Classify and Regress record, on success, one latency sample
    keyed by the model name of the request, their own api name and "GRPC";
    its value is the time between the two readings of the microsecond clock
    taken around the call, and when the clock has stepped back in between it
    is that (negative) difference wrapped around to the top of the uint64
    range.  They record one request count keyed by the model name and the
    status of the servable layer, on success and on failure alike. *)
Theorem latency_is_elapsed_time op svc env context request w :
  let start := NowMicros_at env (micros_reads w) in
  let finish := NowMicros_at env (S (micros_reads w)) in
  let model_name := ModelSpec.name (model_spec request) in
  is_metered op = true ->
  0 <= start < 2 ^ 64 -> 0 <= finish < 2 ^ 64 ->
  exists st response,
    fst (dispatch op svc env context request w) = (ToGRPCStatus st, response) /\
    latencies (effects_of op svc env context request w) =
      (if ok st
       then [ (model_name, api_name op, "GRPC",
               if start <=? finish then finish - start else finish - start + 2 ^ 64) ]
       else []) /\
    request_counts (effects_of op svc env context request w) = [ (model_name, st) ].
Proof.
  intros start finish model_name Hop Hs Hf.
  pose proof (to_uint64_difference start finish Hs Hf) as Hd.
  subst start finish model_name.
  destruct op; try discriminate Hop; unfold_op;
    destruct (enforce_session_run_timeout_ svc);
    cbn [fst snd trace micros_reads gpr_reads];
    on_answer; tidy; rewrite ?Hd;
    (eexists _, _; split; [reflexivity|]; split; reflexivity).
Qed.

(** A clock that steps back by 3 microseconds during a successful call
    yields a latency sample of 2^64 - 3. *)
Lemma latency_is_elapsed_time_witness :
  is_metered OpPredict = true /\
  latencies (effects_of OpPredict svc_lenient (clock_of 1000 997 Status_OK)
               deadline_ahead half_plus_two world0)
  = [ ("half_plus_two", "Predict", "GRPC", 18446744073709551613) ].
Proof.
  split; [reflexivity|].
  destruct (latency_is_elapsed_time OpPredict svc_lenient (clock_of 1000 997 Status_OK)
              deadline_ahead half_plus_two world0 eq_refl
              ltac:(cbn; lia) ltac:(cbn; lia))
    as (st & response & Hres & Hlat & _).
  rewrite Hlat. destruct st as [c m]. vm_compute in Hres.
  injection Hres as <- _ _. reflexivity.
Defined.

(** Every operation logs a failed call once, at verbosity 1, as its own
    prefix followed by the message of the gRPC status it returns, and logs
    nothing for a call that succeeds. *)
Theorem failures_are_logged_once op svc env context request w :
  let status := status_of op svc env context request w in
  log_lines (effects_of op svc env context request w) =
    if grpc.ok status then []
    else [ (1, log_prefix op +:+ grpc.error_message status) ].
Proof.
  destruct op; unfold_op;
    destruct (enforce_session_run_timeout_ svc);
    cbn [fst snd trace micros_reads gpr_reads];
    on_answer; tidy; reflexivity.
Qed.

End DispatcherFurther.

(** * Further properties of the REST helper *)

Section RestFurther.
Import HttpRestApiUtil.

(** A call that fails because both selectors are supplied has already
    written the name into the caller's spec; the selector and the signature
    name of the spec are as they were.  Repeating a call on its own result
    changes nothing more, whether it failed or not. *)
Theorem failed_fill_has_renamed
    (model_name : string) (model_version : option Z)
    (model_version_label : option string) (model_spec : ModelSpec.t) :
  let result :=
    FillModelSpecWithNameVersionAndLabel model_name model_version
      model_version_label model_spec in
  (is_Some model_version -> is_Some model_version_label ->
   snd result = ModelSpec.mk model_name (ModelSpec.choice model_spec)
                  (ModelSpec.signature_name model_spec)) /\
  FillModelSpecWithNameVersionAndLabel model_name model_version
    model_version_label (snd result) = result.
Proof.
  destruct model_spec as [n c s].
  destruct model_version as [v|], model_version_label as [l|]; cbn;
    (split; [|reflexivity]); intros [? ?] [? ?]; try discriminate; reflexivity.
Qed.

Lemma failed_fill_has_renamed_witness :
  is_Some (Some 123) /\ is_Some (Some "canary") /\
  snd (FillModelSpecWithNameVersionAndLabel "half_plus_two" (Some 123) (Some "canary")
         (ModelSpec.mk "old_name" (ModelSpec.version 7) "serving_default"))
  = ModelSpec.mk "half_plus_two" (ModelSpec.version 7) "serving_default".
Proof.
  assert (H1 : is_Some (Some 123)) by (eexists; reflexivity).
  assert (H2 : is_Some (Some "canary")) by (eexists; reflexivity).
  split; [exact H1|]. split; [exact H2|].
  exact (proj1 (failed_fill_has_renamed "half_plus_two" (Some 123) (Some "canary")
                  (ModelSpec.mk "old_name" (ModelSpec.version 7) "serving_default"))
           H1 H2).
Defined.

Lemma curl_calls_of {A} (m : M Process A) p a tr flag :
  m p = (a, mkProcess (curl_trace p ++ tr) flag) -> curl_calls m p = tr.
Proof. unfold curl_calls. intros ->. cbn. apply drop_trace. Qed.

(** [DecodeArg] initialises libcurl globally on the first call of the
    process only.  It returns true exactly when a handle was obtained and
    unescaping succeeded, and then the handle has been cleaned up.  When
    unescaping fails it returns false with the handle still open and the
    argument unchanged; when no handle is obtained it returns false and the
    argument is unchanged. *)
Theorem DecodeArg_handles (web : Web) (arg : string) (p : Process) :
  let r := DecodeArg web arg p in
  run_once (snd r) = true /\
  global_inits (curl_calls (DecodeArg web arg) p) = (if run_once p then 0 else 1)%nat /\
  fst (fst r) = curl_handle_available web && bool_decide (is_Some (unescape web arg)) /\
  handles_open (curl_calls (DecodeArg web arg) p) =
    (if fst (fst r) then 0 else if curl_handle_available web then 1 else 0) /\
  snd (fst r) = (if fst (fst r) then default arg (unescape web arg) else arg).
Proof.
  destruct p as [tr flag].
  unfold DecodeArg, initialise_run_once, curl, bind, ret, curl_calls.
  cbn [curl_trace run_once fst snd].
  destruct flag, (curl_handle_available web), (unescape web arg);
    cbn [curl_trace run_once fst snd andb];
    repeat rewrite <- app_assoc; rewrite ?drop_trace;
    repeat split; reflexivity.
Qed.

Lemma digit_is_no_space c : is_Some (digit_of c) -> ascii_isspace c = false.
Proof.
  intros [d Hd]. revert Hd. unfold digit_of, ascii_isspace.
  destruct (48 <=? nat_of_ascii c)%nat eqn:H1; [|discriminate].
  intros _. apply Nat.leb_le in H1.
  apply orb_false_iff. split.
  - apply Nat.eqb_neq. lia.
  - apply andb_false_iff. right. apply Nat.leb_gt. lia.
Qed.

Lemma digit_is_no_sign c :
  is_Some (digit_of c) -> c <> "-"%char /\ c <> "+"%char.
Proof.
  intros [d Hd]. split; intros ->; vm_compute in Hd; discriminate.
Qed.

Lemma skip_spaces_digits cs :
  Forall (fun c => is_Some (digit_of c)) cs -> skip_spaces cs = cs.
Proof.
  intros H. destruct H as [|c cs Hc _]; [reflexivity|].
  cbn. rewrite (digit_is_no_space c Hc). reflexivity.
Qed.

Lemma strip_spaces_digits cs :
  Forall (fun c => is_Some (digit_of c)) cs -> strip_spaces cs = cs.
Proof.
  intros H. unfold strip_spaces.
  rewrite (skip_spaces_digits cs H).
  rewrite skip_spaces_digits; [apply rev_involutive|].
  apply List.Forall_rev. exact H.
Qed.

Lemma parse_digits_value cs :
  Forall (fun c => is_Some (digit_of c)) cs ->
  forall acc,
    parse_digits acc cs =
      Some (fold_left (fun acc c => acc * 10 + default 0 (digit_of c)) cs acc).
Proof.
  induction 1 as [|c cs [d Hd] _ IH]; intros acc; [reflexivity|].
  cbn [parse_digits fold_left]. rewrite Hd. cbn [default]. apply IH.
Qed.

(** [SimpleAtoi] on what the group [(\d+)] can capture: the value of the
    digits when it fits an int64, and a failure when it does not. *)
Lemma SimpleAtoi_digits text :
  all_digits text ->
  SimpleAtoi text =
    if decimal_value text <=? INT64_MAX then Some (decimal_value text) else None.
Proof.
  intros [Hne Hall]. unfold SimpleAtoi, decimal_value.
  rewrite (strip_spaces_digits _ Hall).
  destruct (list_ascii_of_string text) as [|c cs] eqn:Hcs.
  - exfalso. apply Hne. rewrite <- (string_of_list_ascii_of_string text), Hcs.
    reflexivity.
  - rewrite <- Hcs in *. clear Hne.
    rewrite Hcs. pose proof Hall as Hall'. rewrite Hcs in Hall'.
    assert (Hc : is_Some (digit_of c)) by (inversion Hall'; assumption).
    destruct (digit_is_no_sign c Hc) as [Hminus Hplus].
    destruct c as [[] [] [] [] [] [] [] []];
      first [ exfalso; apply Hminus; reflexivity
            | exfalso; apply Hplus; reflexivity
            | cbv iota beta; rewrite (parse_digits_value _ Hall' 0); reflexivity ].
Qed.

Lemma DecodeArg_result web arg p :
  fst (DecodeArg web arg p) =
    if curl_handle_available web
    then match unescape web arg with
         | Some decoded => (true, decoded)
         | None => (false, arg)
         end
    else (false, arg).
Proof.
  unfold DecodeArg, initialise_run_once, curl, bind, ret.
  destruct (run_once p), (curl_handle_available web), (unescape web arg); reflexivity.
Qed.

(** When nothing is parsed, the request still gets an OK status.  For an
    http method other than POST and GET, and for a path that the pattern of
    the method ([kPredictionApiGegex] for POST, [kModelStatusApiRegex] for
    GET) does not match, [ParseModelInfo] called with an empty model name
    returns OK, touches neither libcurl nor any output other than
    [parse_successful], and sets that one to false for POST and GET and
    leaves it as the caller had it for any other method. *)
Theorem ParseModelInfo_nothing_parsed (web : Web) (http_method request_path : string)
    (out : ParseResult.t) (p : Process) :
  ParseResult.model_name out = "" ->
  (http_method = "POST" ->
   RE2_FullMatch web request_path kPredictionApiGegex = None) ->
  (http_method = "GET" ->
   RE2_FullMatch web request_path kModelStatusApiRegex = None) ->
  ParseModelInfo web http_method request_path out p =
    ((Status_OK,
      ParseResult.mk "" (ParseResult.model_version out)
        (ParseResult.model_version_label out) (ParseResult.method out)
        (ParseResult.model_subresource out)
        (if String.eqb http_method "POST" || String.eqb http_method "GET"
         then false else ParseResult.parse_successful out)),
     p).
Proof.
  intros Hname Hpost Hget. destruct out as [n v l m sub ps]. cbn in Hname. subst n.
  unfold ParseModelInfo. cbn [ParseResult.model_name ParseResult.model_version
    ParseResult.model_version_label ParseResult.method ParseResult.model_subresource
    ParseResult.parse_successful].
  destruct (String.eqb_spec http_method "POST") as [HP|HP];
    [|destruct (String.eqb_spec http_method "GET") as [HG|HG]].
  - rewrite (Hpost HP). reflexivity.
  - rewrite (Hget HG). reflexivity.
  - reflexivity.
Qed.

(** A POST to a path that only the status pattern knows: nothing is
    parsed, and the call returns OK. *)
Lemma ParseModelInfo_nothing_parsed_witness :
  ParseResult.model_name nothing_parsed = "" /\
  RE2_FullMatch web_status_only "/v1/models/half_plus_two" kPredictionApiGegex = None /\
  RE2_FullMatch web_status_only "/v1/models/half_plus_two" kModelStatusApiRegex
  = Some ("half_plus_two", "", "", "") /\
  ParseModelInfo web_status_only "POST" "/v1/models/half_plus_two" nothing_parsed process0
  = ((Status_OK, ParseResult.mk "" None None "" "" false), process0).
Proof.
  assert (H1 : ParseResult.model_name nothing_parsed = "") by reflexivity.
  assert (H2 : RE2_FullMatch web_status_only "/v1/models/half_plus_two"
                 kPredictionApiGegex = None) by (vm_compute; reflexivity).
  assert (H3 : "POST" = "GET" ->
               RE2_FullMatch web_status_only "/v1/models/half_plus_two"
                 kModelStatusApiRegex = None) by (intros H; discriminate H).
  split; [exact H1|]. split; [exact H2|]. split; [vm_compute; reflexivity|].
  pose proof (ParseModelInfo_nothing_parsed web_status_only "POST"
                "/v1/models/half_plus_two" nothing_parsed process0 H1
                (fun _ => H2) H3) as H.
  rewrite H. reflexivity.
Defined.

(** A version number in the path is converted as an int64 and never
    wrapped: for a POST path whose version group holds decimal digits, the
    version written is the value of the digits when that is at most
    2^63 - 1, and otherwise the call fails with InvalidArgument, naming the
    digits, after the (decoded) model name and the method have been written
    and with the version output untouched. *)
Theorem ParseModelInfo_version (web : Web) (request_path : string)
    (out : ParseResult.t) (p : Process) (name decoded digits method : string) :
  RE2_FullMatch web request_path kPredictionApiGegex = Some (name, digits, "", method) ->
  name <> "" ->
  curl_handle_available web = true ->
  unescape web name = Some decoded ->
  all_digits digits ->
  fst (ParseModelInfo web "POST" request_path out p) =
    if decimal_value digits <=? INT64_MAX
    then (Status_OK,
          ParseResult.mk decoded (Some (decimal_value digits))
            (ParseResult.model_version_label out) method
            (ParseResult.model_subresource out) true)
    else (errors.InvalidArgument
            ("Failed to convert version: " +:+ digits +:+ " to numeric."),
          ParseResult.mk decoded (ParseResult.model_version out)
            (ParseResult.model_version_label out) method
            (ParseResult.model_subresource out) true).
Proof.
  intros Hmatch Hname Havailable Hunescape Hdigits.
  unfold ParseModelInfo. cbn [String.eqb Ascii.eqb Bool.eqb]. rewrite Hmatch.
  cbn [ParseResult.model_name ParseResult.model_version
    ParseResult.model_version_label ParseResult.method ParseResult.model_subresource
    ParseResult.parse_successful].
  apply String.eqb_neq in Hname. rewrite Hname. cbn [negb].
  unfold bind at 1.
  pose proof (DecodeArg_result web name p) as HD.
  rewrite Havailable, Hunescape in HD.
  destruct (DecodeArg web name p) as [r p']. cbn [fst] in HD. subst r.
  cbn [negb ParseResult.model_name ParseResult.model_version
    ParseResult.model_version_label ParseResult.method ParseResult.model_subresource
    ParseResult.parse_successful].
  assert (Hne : String.eqb digits "" = false)
    by (apply String.eqb_neq; exact (proj1 Hdigits)).
  rewrite Hne. cbn [negb]. rewrite (SimpleAtoi_digits digits Hdigits).
  destruct (decimal_value digits <=? INT64_MAX); reflexivity.
Qed.

Lemma ParseModelInfo_version_witness :
  all_digits "99999999999999999999" /\
  fst (ParseModelInfo web_example "POST"
         "/v1/models/half_plus_two/versions/99999999999999999999:predict"
         nothing_parsed process0)
  = (errors.InvalidArgument
       "Failed to convert version: 99999999999999999999 to numeric.",
     ParseResult.mk "half_plus_two" None None "predict" "" true).
Proof.
  assert (H : all_digits "99999999999999999999").
  { split; [discriminate|]. repeat constructor; eexists; reflexivity. }
  split; [exact H|].
  exact (ParseModelInfo_version web_example
           "/v1/models/half_plus_two/versions/99999999999999999999:predict"
           nothing_parsed process0 "half_plus_two" "half_plus_two"
           "99999999999999999999" "predict"
           eq_refl ltac:(discriminate) eq_refl eq_refl H).
Defined.

(** Every failure of [ParseModelInfo] is an InvalidArgument. *)
Theorem ParseModelInfo_fails_with_InvalidArgument (web : Web)
    (http_method request_path : string) (out : ParseResult.t) (p : Process) :
  let st := fst (fst (ParseModelInfo web http_method request_path out p)) in
  st = Status_OK \/ code st = error.INVALID_ARGUMENT.
Proof.
  unfold ParseModelInfo. cbv zeta.
  destruct (if String.eqb http_method "POST" then _ else _) as [[out' vstr] lstr].
  unfold bind. cbv beta.
  destruct ((if negb (String.eqb (ParseResult.model_name out') "")
             then DecodeArg web (ParseResult.model_name out')
             else ret (true, ParseResult.model_name out')) p) as [[decoded name] p'].
  destruct decoded; cbn [negb]; [|right; reflexivity].
  destruct (negb (String.eqb vstr "")).
  - destruct (SimpleAtoi vstr); [|right; reflexivity].
    destruct (negb (String.eqb lstr "")); [|left; reflexivity].
    destruct (DecodeArg web lstr p') as [[[] label] p''];
      [left | right]; reflexivity.
  - destruct (negb (String.eqb lstr "")); [|left; reflexivity].
    destruct (DecodeArg web lstr p') as [[[] label] p''];
      [left | right]; reflexivity.
Qed.

End RestFurther.

(** * Further properties of the bundle factory *)

Section FactoryFurther.
Import BundleFactory FactoryContract FactoryObservations.

Ltac finish_run := first [apply runs_ret_at | apply runs_ret].

(** The wrapping step, case by case: what it returns and what it calls. *)
Lemma wrap_bundle_session_cases self env bundle :
  exists r ev,
    (forall w, runs (wrap_bundle_session self env bundle) w r ev (schedulers w)) /\
    match batching_parameters (config_ self), batch_scheduler_ self with
    | None, _ =>
        ev = [Call_WrapSession (wrap_session env)] /\
        r = (wrap_session env,
             mkBundle (if ok (wrap_session env)
                       then SessionWrapper <$> session bundle else session bundle)
                      (meta_graph_def bundle))
    | Some params, Some s =>
        let sigs := GetSignatureDefs bundle in
        let st := wrap_session_for_batching env params sigs (session bundle) in
        ev = [LOG_INFO "Wrapping session to perform batch processing";
              Call_WrapSessionForBatching params s sigs st] /\
        r = (st, mkBundle (if ok st
                           then BatchingSession params s sigs <$> session bundle
                           else session bundle)
                          (meta_graph_def bundle))
    | Some _, None =>
        ev = [LOG_INFO "Wrapping session to perform batch processing"] /\
        r = (errors.Internal "batch_scheduler_ not set", bundle)
    end.
Proof.
  unfold wrap_bundle_session.
  destruct (batching_parameters (config_ self)) as [params|].
  - destruct (batch_scheduler_ self) as [s|].
    + unfold WrapSessionForBatching. cbv zeta.
      set (sigs := GetSignatureDefs bundle).
      destruct (ok (wrap_session_for_batching env params sigs (session bundle))) eqn:O.
      all: eexists _, _; split;
        [ intros w; apply runs_emit_then; eapply runs_bind;
          [ apply runs_emit_then; finish_run | cbn; finish_run ]
        | split; reflexivity ].
    + eexists _, _. split; [intros w; apply runs_emit_then; finish_run|].
      split; reflexivity.
  - unfold WrapSession. cbv zeta.
    destruct (ok (wrap_session env)) eqn:O.
    all: eexists _, _; split;
      [ intros w; eapply runs_bind; [ apply runs_emit_then; finish_run | cbn; finish_run ]
      | split; reflexivity ].
Qed.

(** A load is its backend-loading step followed, when that step succeeds,
    by the wrapping step on the bundle as the metadata step leaves it. *)
Lemma Load_composed self env metadata path w :
  exists ev0 r ev1,
    events_of (load_backend self env metadata path new_SavedModelBundle) w = ev0 /\
    (forall w', runs (wrap_bundle_session self env
                        (after_metadata_step self (snd (loaded self env metadata path w))))
                  w' r ev1 (schedulers w')) /\
    Load self env metadata path w =
      (if ok (fst (loaded self env metadata path w))
       then r else loaded self env metadata path w) /\
    Load_events self env metadata path w =
      (ev0 ++ if ok (fst (loaded self env metadata path w)) then ev1 else [])%list.
Proof.
  destruct (load_backend_runs self env metadata path new_SavedModelBundle w)
    as (st0 & b0 & ev0 & Hr0 & _).
  assert (Hloaded : loaded self env metadata path w = (st0, b0))
    by (unfold loaded; exact (runs_result _ _ _ _ _ Hr0)).
  rewrite Hloaded. cbn [fst snd].
  destruct (wrap_bundle_session_cases self env (after_metadata_step self b0))
    as (r & ev1 & Hr1 & _).
  exists ev0, r, ev1.
  split; [exact (runs_events_of _ _ _ _ _ Hr0)|]. split; [exact Hr1|].
  assert (Hrun : runs (InternalCreateSavedModelBundle self env metadata path) w
                   (if ok st0 then r else (st0, b0))
                   (ev0 ++ if ok st0 then ev1 else []) (schedulers w)).
  { unfold InternalCreateSavedModelBundle. eapply runs_bind; [exact Hr0|].
    cbn. destruct (ok st0); cbn.
    - apply (Hr1 (mkWorld _ _)).
    - finish_run. }
  split.
  - unfold Load. exact (runs_result _ _ _ _ _ Hrun).
  - unfold Load_events. exact (runs_events_of _ _ _ _ _ Hrun).
Qed.

(** What [LoadTfLiteModel] calls: the file system, about the model file
    only, and the lightweight loader. *)
Lemma LoadTfLiteModel_calls env dir bundle n w :
  exists r ev,
    runs (LoadTfLiteModel env dir bundle n) w r ev (schedulers w) /\
    wrap_calls ev = [] /\ full_engine_options ev = [] /\
    Forall (fun e => Forall (fun fname => fname = model_file dir) (files_named e)) ev.
Proof.
  unfold LoadTfLiteModel, model_file.
  set (fname := JoinPath dir kTfLiteModelFilename).
  destruct (GetFileSize env fname) as [st1 size]; cbn [fst snd].
  destruct (ok st1) eqn:O1; cbn [negb].
  2: { eexists _, _. split; [apply runs_emit_then; finish_run|].
       cbn. repeat split; repeat constructor. }
  destruct (ok (NewRandomAccessFile env fname)) eqn:O2; cbn [negb].
  2: { eexists _, _. split; [do 2 apply runs_emit_then; finish_run|].
       cbn. repeat split; repeat constructor. }
  destruct (Read env fname 0 size) as [st3 model_bytes]; cbn [fst snd].
  destruct (ok st3) eqn:O3; cbn [negb].
  2: { eexists _, _. split; [do 3 apply runs_emit_then; finish_run|].
       cbn. repeat split; repeat constructor. }
  pose proof (TfLiteSession_Create_runs env model_bytes
                (MetaGraphDef.signature_def (meta_graph_def bundle)) n) as HC.
  destruct (ok (fst (tflite_model env model_bytes))) eqn:O4.
  - eexists _, _. split.
    { do 3 apply runs_emit_then. eapply runs_bind; [apply HC|]. cbn. finish_run. }
    cbn. repeat split; repeat constructor.
  - eexists _, _. split.
    { do 3 apply runs_emit_then. eapply runs_bind; [apply HC|]. cbn.
      rewrite O4. cbn. finish_run. }
    cbn. repeat split; repeat constructor.
Qed.

(** What the backend-loading step calls. *)
Lemma load_backend_calls self env metadata path bundle w :
  let ev := events_of (load_backend self env metadata path bundle) w in
  wrap_calls ev = [] /\
  full_engine_options ev =
    (if lightweight_selected self env path then []
     else [(session_options_for env (config_ self) metadata,
            GetRunOptions env (config_ self))]) /\
  Forall (fun e => Forall (fun fname => fname = model_file path) (files_named e)) ev /\
  own_file_system_calls ev =
    (if prefer_tflite_model (config_ self)
     then if FilesExist env [model_file path]
          then own_file_system_calls ev
          else [Call_FilesExist [model_file path] false]
     else []).
Proof.
  pose proof (LoadSessionBundleOrSavedModelBundle_runs env
                (session_options_for env (config_ self) metadata)
                (GetRunOptions env (config_ self)) path
                (active_saved_model_tags (config_ self)) bundle) as HF.
  cbv zeta in HF. cbv zeta.
  unfold lightweight_selected, model_file.
  set (fname := JoinPath path kTfLiteModelFilename).
  enough (exists r ev,
            runs (load_backend self env metadata path bundle) w r ev (schedulers w) /\
            (wrap_calls ev = [] /\
             full_engine_options ev =
               (if prefer_tflite_model (config_ self) && FilesExist env [fname] then []
                else [(session_options_for env (config_ self) metadata,
                       GetRunOptions env (config_ self))]) /\
             Forall (fun e => Forall (fun f => f = fname) (files_named e)) ev /\
             own_file_system_calls ev =
               (if prefer_tflite_model (config_ self)
                then if FilesExist env [fname]
                     then own_file_system_calls ev
                     else [Call_FilesExist [fname] false]
                else []))) as (r & ev & Hrun & H).
  { rewrite (runs_events_of _ _ _ _ _ Hrun). exact H. }
  unfold load_backend. cbv zeta.
  destruct (prefer_tflite_model (config_ self)); cbn [andb].
  - pose proof (TfLiteModelFound_runs env path w) as HT. fold fname in HT.
    destruct (FilesExist env [fname]) eqn:F.
    + destruct (LoadTfLiteModel_calls env path bundle
                  (num_tflite_interpreters (config_ self))
                  (mkWorld (trace w ++ [Call_FilesExist [fname] true]) (schedulers w)))
        as (r & ev & Hr & Hw & Ho & Hn).
      exists r, ([Call_FilesExist [fname] true] ++ ev)%list. split.
      { eapply runs_bind; [exact HT|exact Hr]. }
      cbn. repeat split; try assumption.
      constructor; [repeat constructor | exact Hn].
    + eexists _, _. split.
      { eapply runs_bind; [exact HT|]. apply (HF (mkWorld _ _)). }
      cbn. repeat split; repeat constructor.
  - eexists _, _. split; [apply HF|].
    cbn. repeat split; repeat constructor.
Qed.

Lemma after_metadata_step_keeps self bundle :
  session (after_metadata_step self bundle) = session bundle /\
  GetSignatureDefs (after_metadata_step self bundle) = GetSignatureDefs bundle.
Proof.
  unfold after_metadata_step.
  destruct (remove_unused_fields_from_bundle_metagraph (config_ self));
    split; reflexivity.
Qed.

Lemma wrap_calls_app ev1 ev2 :
  wrap_calls (ev1 ++ ev2) = (wrap_calls ev1 ++ wrap_calls ev2)%list.
Proof. apply List.filter_app. Qed.

Lemma own_file_system_calls_app ev1 ev2 :
  own_file_system_calls (ev1 ++ ev2) = (own_file_system_calls ev1 ++ own_file_system_calls ev2)%list.
Proof. apply List.filter_app. Qed.

Lemma full_engine_options_app ev1 ev2 :
  full_engine_options (ev1 ++ ev2)
  = (full_engine_options ev1 ++ full_engine_options ev2)%list.
Proof. apply omap_app. Qed.

(** The calls of the wrapping step within a load. *)
Lemma wrap_calls_of_load self env metadata path w :
  wrap_calls (Load_events self env metadata path w) =
    if ok (fst (loaded self env metadata path w)) then
      match batching_parameters (config_ self), batch_scheduler_ self with
      | None, _ => [Call_WrapSession (wrap_session env)]
      | Some params, Some s =>
          let sigs := GetSignatureDefs (snd (loaded self env metadata path w)) in
          [Call_WrapSessionForBatching params s sigs
             (wrap_session_for_batching env params sigs
                (session (snd (loaded self env metadata path w))))]
      | Some _, None => []
      end
    else [].
Proof.
  destruct (Load_composed self env metadata path w)
    as (ev0 & r & ev1 & Hev0 & Hr1 & _ & Hevents).
  rewrite Hevents, wrap_calls_app.
  destruct (load_backend_calls self env metadata path new_SavedModelBundle w)
    as (Hw0 & _). cbv zeta in Hw0. rewrite Hev0 in Hw0. rewrite Hw0. cbn [app].
  destruct (ok (fst (loaded self env metadata path w))); [|reflexivity].
  destruct (wrap_bundle_session_cases self env
              (after_metadata_step self (snd (loaded self env metadata path w))))
    as (r' & ev1' & Hr1' & Hcases).
  assert (ev1 = ev1') as ->.
  { pose proof (Hr1 world0) as H1. pose proof (Hr1' world0) as H2.
    unfold runs in H1, H2. rewrite H1 in H2. injection H2 as _ H2.
    exact H2. }
  destruct (after_metadata_step_keeps self (snd (loaded self env metadata path w)))
    as [Hs Hg].
  rewrite Hs, Hg in Hcases.
  destruct (batching_parameters (config_ self)) as [params|];
    [destruct (batch_scheduler_ self) as [s|]|];
    destruct Hcases as [-> _]; reflexivity.
Qed.

Lemma status_of_wrapped_load self env metadata path w :
  ok (fst (loaded self env metadata path w)) = true ->
  fst (Load self env metadata path w) =
    match batching_parameters (config_ self), batch_scheduler_ self with
    | None, _ => wrap_session env
    | Some params, Some s =>
        wrap_session_for_batching env params
          (GetSignatureDefs (snd (loaded self env metadata path w)))
          (session (snd (loaded self env metadata path w)))
    | Some _, None => errors.Internal "batch_scheduler_ not set"
    end.
Proof.
  intros Hok.
  destruct (Load_composed self env metadata path w)
    as (ev0 & r & ev1 & _ & Hr1 & HLoad & _).
  rewrite HLoad, Hok.
  destruct (wrap_bundle_session_cases self env
              (after_metadata_step self (snd (loaded self env metadata path w))))
    as (r' & ev1' & Hr1' & Hcases).
  assert (r = r') as ->.
  { pose proof (Hr1 world0) as H1. pose proof (Hr1' world0) as H2.
    unfold runs in H1, H2. rewrite H1 in H2. injection H2 as H2 _. exact H2. }
  destruct (after_metadata_step_keeps self (snd (loaded self env metadata path w)))
    as [Hs Hg].
  rewrite Hs, Hg in Hcases.
  destruct (batching_parameters (config_ self)) as [params|];
    [destruct (batch_scheduler_ self) as [s|]|];
    destruct Hcases as [_ ->]; reflexivity.
Qed.

(** The session is wrapped at most once, and only after its backend has
    been loaded.  A load whose backend-loading step fails makes no wrapping
    call.  Otherwise it makes exactly one: [WrapSession] when the
    configuration has no batching parameters, and, when it has them and the
    factory holds a scheduler, [WrapSessionForBatching] with those
    parameters, that scheduler, and every signature of the loaded metadata
    (whether or not the metadata step has dropped the other fields); its
    status is the status of the load.  With batching parameters and no scheduler no
    wrapping call is made. *)
Theorem session_is_wrapped_once self env metadata path w :
  let bundle := snd (loaded self env metadata path w) in
  let sigs := GetSignatureDefs bundle in
  wrap_calls (Load_events self env metadata path w) =
    (if ok (fst (loaded self env metadata path w)) then
       match batching_parameters (config_ self), batch_scheduler_ self with
       | None, _ => [Call_WrapSession (wrap_session env)]
       | Some params, Some s =>
           [Call_WrapSessionForBatching params s sigs
              (wrap_session_for_batching env params sigs (session bundle))]
       | Some _, None => []
       end
     else []) /\
  (ok (fst (loaded self env metadata path w)) = true ->
   fst (Load self env metadata path w) =
     match batching_parameters (config_ self), batch_scheduler_ self with
     | None, _ => wrap_session env
     | Some params, Some s => wrap_session_for_batching env params sigs (session bundle)
     | Some _, None => errors.Internal "batch_scheduler_ not set"
     end).
Proof.
  cbv zeta. split; [apply wrap_calls_of_load | apply status_of_wrapped_load].
Qed.

Lemma session_is_wrapped_once_witness :
  ok (fst (loaded factory_with_scheduler saved_model_only None half_plus_two_dir world0))
    = true /\
  fst (Load factory_with_scheduler saved_model_only None half_plus_two_dir world0)
    = Status_OK /\
  wrap_calls (Load_events factory_with_scheduler saved_model_only None
                half_plus_two_dir world0)
    = [Call_WrapSessionForBatching batching_2_50ms 0%nat [serving_default] Status_OK].
Proof.
  assert (H : ok (fst (loaded factory_with_scheduler saved_model_only None
                         half_plus_two_dir world0)) = true)
    by (vm_compute; reflexivity).
  split; [exact H|].
  destruct (session_is_wrapped_once factory_with_scheduler saved_model_only None
              half_plus_two_dir world0) as [Hcalls Hstatus].
  split.
  - rewrite (Hstatus H). reflexivity.
  - rewrite Hcalls. vm_compute. reflexivity.
Defined.

(** A factory that [Create] returns holds a scheduler exactly when its
    configuration has batching parameters, so none of its loads fails for
    want of a scheduler: every load whose backend-loading step succeeds
    makes its one wrapping call and returns the status of that call.
    [Create] itself fails only when the scheduler cannot be created, with
    the error of [CreateBatchScheduler], and without batching parameters it
    creates no scheduler. *)
Theorem created_factory_has_its_scheduler env config w0 :
  let st0 := fst (fst (Create env config w0)) in
  match snd (fst (Create env config w0)) with
  | Some factory =>
      st0 = Status_OK /\ config_ factory = config /\
      (is_Some (batch_scheduler_ factory) <-> is_Some (batching_parameters config)) /\
      forall env' metadata path w,
        ok (fst (loaded factory env' metadata path w)) = true ->
        exists call,
          wrap_calls (Load_events factory env' metadata path w) = [call] /\
          fst (Load factory env' metadata path w) = wrap_status call
  | None =>
      ok st0 = false /\
      exists params, batching_parameters config = Some params /\
                     st0 = create_batch_scheduler env params
  end /\
  (batching_parameters config = None ->
   events_of (Create env config) w0 = [] /\
   schedulers (snd (Create env config w0)) = schedulers w0).
Proof.
  cbv zeta. split.
  - destruct (Create_runs env config w0) as (r & ev & n & Hrun & Hr).
    rewrite (runs_result _ _ _ _ _ Hrun).
    destruct r as [st [factory|]]; cbn [fst snd].
    + destruct (Hr st factory eq_refl) as (-> & Hconfig & Hsched).
      split; [reflexivity|]. split; [exact Hconfig|].
      assert (Hiff : is_Some (batch_scheduler_ factory)
                     <-> is_Some (batching_parameters config)).
      { destruct (batching_parameters config) as [params|].
        - destruct Hsched as (-> & _). split; intros _; eexists; reflexivity.
        - destruct Hsched as (-> & _). split; intros [? [=]]. }
      split; [exact Hiff|].
      intros env' metadata path w Hok.
      rewrite (wrap_calls_of_load factory env' metadata path w), Hok.
      rewrite (status_of_wrapped_load factory env' metadata path w Hok), Hconfig.
      destruct (batching_parameters config) as [params|].
      * destruct (batch_scheduler_ factory) as [s|].
        -- eexists. split; reflexivity.
        -- exfalso. destruct (proj2 Hiff (ex_intro _ params eq_refl)) as [? [=]].
      * eexists. split; reflexivity.
    + revert Hrun. unfold Create.
      destruct (batching_parameters config) as [params|].
      * unfold CreateBatchScheduler, bind, ret, emit, new_scheduler, runs. cbv zeta.
        destruct (ok (create_batch_scheduler env params)) eqn:O; cbn; rewrite ?O; cbn.
        -- intros [=].
        -- intros [= <- _]. split; [exact O|]. exists params. split; reflexivity.
      * unfold ret, runs. intros [=].
  - intros Hnone. unfold Create, events_of. rewrite Hnone. cbn.
    split; [apply drop_all|reflexivity].
Qed.

Lemma created_factory_has_its_scheduler_witness :
  ok (fst (loaded factory_with_scheduler saved_model_only None half_plus_two_dir world0))
    = true /\
  snd (fst (Create saved_model_only batching_config world0)) = Some factory_with_scheduler /\
  exists call,
    wrap_calls (Load_events factory_with_scheduler saved_model_only None
                  half_plus_two_dir world0) = [call] /\
    fst (Load factory_with_scheduler saved_model_only None half_plus_two_dir world0)
      = wrap_status call.
Proof.
  assert (H : ok (fst (loaded factory_with_scheduler saved_model_only None
                         half_plus_two_dir world0)) = true)
    by (vm_compute; reflexivity).
  split; [exact H|]. split; [reflexivity|].
  pose proof (proj1 (created_factory_has_its_scheduler saved_model_only batching_config
                       world0)) as HC.
  change (snd (fst (Create saved_model_only batching_config world0)))
    with (Some factory_with_scheduler) in HC.
  exact (proj2 (proj2 (proj2 HC)) saved_model_only None half_plus_two_dir world0 H).
Defined.

Lemma wrap_step_calls self env bundle w :
  let ev := events_of (wrap_bundle_session self env bundle) w in
  full_engine_options ev = [] /\ own_file_system_calls ev = [].
Proof.
  cbv zeta.
  destruct (wrap_bundle_session_cases self env bundle) as (r & ev & Hr & Hcases).
  rewrite (runs_events_of _ _ _ _ _ (Hr w)).
  destruct (batching_parameters (config_ self)) as [params|];
    [destruct (batch_scheduler_ self) as [s|]|];
    destruct Hcases as [-> _]; split; reflexivity.
Qed.

Lemma Load_events_split self env metadata path w :
  exists ev1,
    Load_events self env metadata path w =
      (events_of (load_backend self env metadata path new_SavedModelBundle) w ++ ev1)%list /\
    full_engine_options ev1 = [] /\ own_file_system_calls ev1 = [].
Proof.
  destruct (Load_composed self env metadata path w)
    as (ev0 & r & ev1 & Hev0 & Hr1 & _ & Hevents).
  rewrite Hevents, Hev0.
  destruct (ok (fst (loaded self env metadata path w))).
  - exists ev1. split; [reflexivity|].
    pose proof (wrap_step_calls self env
                  (after_metadata_step self (snd (loaded self env metadata path w))) w)
      as H. cbv zeta in H.
    rewrite (runs_events_of _ _ _ _ _ (Hr1 w)) in H. exact H.
  - exists []. repeat split; reflexivity.
Qed.

(** The version metadata of a load is an annotation and nothing else.  It
    reaches the full engine, and only as the session metadata (name and
    version) of the session options, which are otherwise those of
    [GetSessionOptions]; without metadata the options are handed on
    untouched.  A load that selects the lightweight backend does not look
    at the metadata at all. *)
Theorem version_metadata_is_annotation self env metadata path w :
  full_engine_options (Load_events self env metadata path w) =
    (if lightweight_selected self env path then []
     else [ (match metadata with
             | Some m =>
                 mkSessionOptions
                   (target (GetSessionOptions env (config_ self)))
                   (config (GetSessionOptions env (config_ self)))
                   (Some (mkSessionMetadata (servable_name (servable_id m))
                                            (servable_version (servable_id m))))
             | None => GetSessionOptions env (config_ self)
             end,
             GetRunOptions env (config_ self)) ]) /\
  (lightweight_selected self env path = true ->
   forall metadata',
     InternalCreateSavedModelBundle self env metadata' path w
     = InternalCreateSavedModelBundle self env metadata path w).
Proof.
  split.
  - destruct (Load_events_split self env metadata path w) as (ev1 & -> & Ho & _).
    rewrite full_engine_options_app, Ho, app_nil_r.
    destruct (load_backend_calls self env metadata path new_SavedModelBundle w)
      as (_ & Hopts & _). cbv zeta in Hopts. rewrite Hopts.
    destruct (lightweight_selected self env path); [reflexivity|].
    unfold session_options_for. destruct metadata; reflexivity.
  - unfold lightweight_selected, model_file. intros Hsel metadata'.
    apply andb_true_iff in Hsel as [Hprefer Hfound].
    unfold InternalCreateSavedModelBundle, load_backend, TfLiteModelFound, bind, emit, ret.
    rewrite Hprefer, Hfound. reflexivity.
Qed.

Lemma version_metadata_is_annotation_witness :
  lightweight_selected (mkFactory prefer_tflite_config None) tflite_only
    half_plus_two_dir = true /\
  InternalCreateSavedModelBundle (mkFactory prefer_tflite_config None) tflite_only
    (Some half_plus_two_v123) half_plus_two_dir world0
  = InternalCreateSavedModelBundle (mkFactory prefer_tflite_config None) tflite_only
      None half_plus_two_dir world0.
Proof.
  assert (H : lightweight_selected (mkFactory prefer_tflite_config None) tflite_only
                half_plus_two_dir = true) by (vm_compute; reflexivity).
  split; [exact H|].
  exact (proj2 (version_metadata_is_annotation (mkFactory prefer_tflite_config None)
                  tflite_only None half_plus_two_dir world0) H
           (Some half_plus_two_v123)).
Defined.

(** Of the file system, the factory's own code touches nothing but
    'model.tflite' under the load's path: every file named in a call it
    makes on the file system is that file.  Without prefer-lightweight it
    makes no such call, and with it, when the file is absent, its only such
    call is the one existence check; in both cases the path goes to the
    full-engine loader, in one call, and what that loader reads under the
    path is its own affair. *)
Theorem own_file_system_use self env metadata path w :
  let ev := Load_events self env metadata path w in
  let full_engine := FullEngine path (active_saved_model_tags (config_ self)) in
  Forall (fun e => Forall (fun fname => fname = model_file path) (files_named e)) ev /\
  (prefer_tflite_model (config_ self) = false ->
   own_file_system_calls ev = [] /\ backends_attempted ev = [full_engine]) /\
  (prefer_tflite_model (config_ self) = true ->
   FilesExist env [model_file path] = false ->
   own_file_system_calls ev = [Call_FilesExist [model_file path] false] /\
   backends_attempted ev = [full_engine]).
Proof.
  cbv zeta.
  destruct (attempted_and_constructed self env metadata path w) as [Hattempted _].
  unfold lightweight_selected in Hattempted.
  destruct (Load_composed self env metadata path w)
    as (ev0 & r & ev1 & Hev0 & Hr1 & _ & Hevents).
  destruct (load_backend_calls self env metadata path new_SavedModelBundle w)
    as (_ & _ & Hnames & Hfs). cbv zeta in Hnames, Hfs. rewrite Hev0 in Hnames, Hfs.
  assert (Hfs1 : own_file_system_calls
                   (if ok (fst (loaded self env metadata path w)) then ev1 else []) = []
                 /\ Forall (fun e => Forall (fun fname => fname = model_file path)
                                            (files_named e))
                           (if ok (fst (loaded self env metadata path w))
                            then ev1 else [])).
  { destruct (ok (fst (loaded self env metadata path w)));
      [|split; [reflexivity|constructor]].
    destruct (wrap_bundle_session_cases self env
                (after_metadata_step self (snd (loaded self env metadata path w))))
      as (r' & ev1' & Hr1' & Hcases).
    assert (ev1 = ev1') as ->.
    { pose proof (Hr1 world0) as H1. pose proof (Hr1' world0) as H2.
      unfold runs in H1, H2. rewrite H1 in H2. injection H2 as _ H2.
      exact H2. }
    destruct (batching_parameters (config_ self)) as [params|];
      [destruct (batch_scheduler_ self) as [s|]|];
      destruct Hcases as [-> _]; split; try reflexivity; repeat constructor. }
  destruct Hfs1 as [Hfs1 Hnames1].
  rewrite Hattempted.
  rewrite Hevents, own_file_system_calls_app, Hfs1, app_nil_r.
  split; [apply Forall_app; split; assumption|].
  split.
  - intros Hprefer. rewrite Hfs, Hprefer. split; reflexivity.
  - intros Hprefer Hfound. rewrite Hfs, Hprefer, Hfound. split; reflexivity.
Qed.

Lemma own_file_system_use_witness :
  prefer_tflite_model (config_ (mkFactory default_config None)) = false /\
  own_file_system_calls (Load_events (mkFactory default_config None) saved_model_only None
                           half_plus_two_dir world0) = [] /\
  backends_attempted (Load_events (mkFactory default_config None) saved_model_only None
                        half_plus_two_dir world0)
  = [FullEngine half_plus_two_dir {[ "serve" ]}].
Proof.
  assert (H : prefer_tflite_model (config_ (mkFactory default_config None)) = false)
    by reflexivity.
  split; [exact H|].
  pose proof (proj1 (proj2 (own_file_system_use (mkFactory default_config None)
                              saved_model_only None half_plus_two_dir world0)) H)
    as [Hcalls Hbackend].
  split; [exact Hcalls|].
  rewrite Hbackend. f_equal.
Defined.

(** [ParseFixedInputTensors] appends to the caller's list, in order and
    under their names, the tensors of the longest prefix of protos that can
    be parsed.  It succeeds exactly when every proto can be parsed, and the
    names appended are then the names of all the protos; when it fails, the
    pairs before the first unparsable proto have already been appended, and
    the error is an InvalidArgument that prints that proto. *)
Theorem ParseFixedInputTensors_prefix {TensorProto Tensor : Type}
    (FromProto : TensorProto -> option Tensor) (ShortDebugString : TensorProto -> string)
    (protos : list (NamedTensorProto TensorProto)) (parsed : list (string * Tensor)) :
  let r := ParseFixedInputTensors FromProto ShortDebugString protos parsed in
  snd r = (parsed ++ parsable_prefix FromProto protos)%list /\
  (fst r = Status_OK <->
   Forall (fun proto => is_Some (FromProto (proto_tensor proto))) protos) /\
  (fst r = Status_OK ->
   (snd r).*1 = (parsed.*1 ++ (proto_name <$> protos))%list) /\
  (fst r <> Status_OK ->
   exists proto,
     protos !! length (parsable_prefix FromProto protos) = Some proto /\
     FromProto (proto_tensor proto) = None /\
     fst r = errors.InvalidArgument
               ("Unable to parse tensor proto: " +:+ ShortDebugString (proto_tensor proto))).
Proof.
  cbv zeta. revert parsed.
  induction protos as [|proto rest IH]; intros parsed.
  - cbn. rewrite !app_nil_r. split; [reflexivity|]. split; [|split].
    + split; intros _; [constructor | reflexivity].
    + reflexivity.
    + intros H. exfalso. apply H. reflexivity.
  - cbn [ParseFixedInputTensors parsable_prefix].
    destruct (FromProto (proto_tensor proto)) as [tensor|] eqn:HP.
    + destruct (IH (parsed ++ [(proto_name proto, tensor)])%list)
        as (Hsnd & Hiff & Hnames & Hfail).
      split; [rewrite Hsnd, <- app_assoc; reflexivity|].
      split; [|split].
      * rewrite Hiff. split.
        -- intros H. constructor; [rewrite HP; eexists; reflexivity | exact H].
        -- intros H. inversion H; assumption.
      * intros Hok. rewrite (Hnames Hok), fmap_app, <- app_assoc. reflexivity.
      * intros Hnot. destruct (Hfail Hnot) as (bad & Hat & Hbad & Hst).
        exists bad. repeat split; assumption.
    + cbn [fst snd]. rewrite app_nil_r. split; [reflexivity|].
      split; [|split].
      * split; [discriminate|].
        intros H. inversion H as [|? ? [t Ht] _]. rewrite HP in Ht. discriminate.
      * discriminate.
      * intros _. exists proto. repeat split; [exact HP].
Qed.

Lemma ParseFixedInputTensors_prefix_witness :
  fst (ParseFixedInputTensors digit_tensor id
         [mkNamedTensorProto "a" "1"; mkNamedTensorProto "b" "2"] [("z", 0)])
    = Status_OK /\
  (ParseFixedInputTensors digit_tensor id
     [mkNamedTensorProto "a" "1"; mkNamedTensorProto "b" "2"] [("z", 0)]).2.*1
    = ["z"; "a"; "b"].
Proof.
  assert (H : fst (ParseFixedInputTensors digit_tensor id
                     [mkNamedTensorProto "a" "1"; mkNamedTensorProto "b" "2"]
                     [("z", 0)]) = Status_OK) by reflexivity.
  split; [exact H|].
  exact (proj1 (proj2 (proj2 (ParseFixedInputTensors_prefix digit_tensor id
                                [mkNamedTensorProto "a" "1"; mkNamedTensorProto "b" "2"]
                                [("z", 0)]))) H).
Defined.

(** Two protos that parse, then one that does not: the two are appended,
    the call fails. *)
Example ParseFixedInputTensors_partial :
  ParseFixedInputTensors digit_tensor id
    [mkNamedTensorProto "a" "1"; mkNamedTensorProto "b" "2";
     mkNamedTensorProto "c" "three"; mkNamedTensorProto "d" "1"] [("z", 0)]
  = (errors.InvalidArgument "Unable to parse tensor proto: three",
     [("z", 0); ("a", 1); ("b", 2)]).
Proof. reflexivity. Qed.

Lemma foldr_snoc_values {K V} (l : list (K * V)) :
  foldr (uncurry (fun (_ : K) (v : V) (acc : list V) => (acc ++ [v])%list)) [] l
  = reverse (l.*2).
Proof.
  induction l as [|[k v] l IH]; [reflexivity|].
  cbn [foldr uncurry fmap list_fmap snd]. rewrite IH, reverse_cons. reflexivity.
Qed.

(** [GetSignatureDefs] returns every signature of the bundle's signature
    map once: as many signatures as the map has keys, each the signature of
    some key, and none left out. *)
Theorem GetSignatureDefs_are_the_map_values (bundle : SavedModelBundle) :
  let sigs := MetaGraphDef.signature_def (meta_graph_def bundle) in
  GetSignatureDefs bundle ≡ₚ (map_to_list sigs).*2 /\
  length (GetSignatureDefs bundle) = size sigs /\
  (forall signature_def,
     signature_def ∈ GetSignatureDefs bundle <->
     exists key, sigs !! key = Some signature_def).
Proof.
  cbv zeta. unfold GetSignatureDefs.
  rewrite map_fold_foldr, foldr_snoc_values.
  set (sigs := MetaGraphDef.signature_def (meta_graph_def bundle)).
  split; [apply reverse_Permutation|]. split.
  - rewrite length_reverse, length_fmap. apply length_map_to_list.
  - intros sd. rewrite elem_of_reverse, list_elem_of_fmap. split.
    + intros [[key v] [-> Hin]]. exists key. apply elem_of_map_to_list. exact Hin.
    + intros [key Hkey]. exists (key, sd). split; [reflexivity|].
      apply elem_of_map_to_list. exact Hkey.
Qed.

(** The active tag set is never empty, and it depends on the configured
    tags as a set only: their order and repetitions do not matter. *)
Theorem active_tags_are_a_nonempty_set (config config' : SessionBundleConfig) :
  active_saved_model_tags config <> ∅ /\
  ((forall tag, tag ∈ saved_model_tags config <-> tag ∈ saved_model_tags config') ->
   active_saved_model_tags config = active_saved_model_tags config').
Proof.
  split.
  - unfold active_saved_model_tags.
    destruct (bool_decide_reflect
                ((list_to_set (saved_model_tags config) : gset string) = ∅)) as [->|Hne].
    + set_solver.
    + exact Hne.
  - intros Hsame.
    assert (Hset : (list_to_set (saved_model_tags config) : gset string)
                   = list_to_set (saved_model_tags config')).
    { apply set_eq. intros tag. rewrite !elem_of_list_to_set. apply Hsame. }
    unfold active_saved_model_tags. rewrite Hset. reflexivity.
Qed.

Lemma active_tags_are_a_nonempty_set_witness :
  (forall tag, tag ∈ ["serve"; "gpu"; "serve"] <-> tag ∈ ["gpu"; "serve"]) /\
  active_saved_model_tags (mkConfig "" "" None ["serve"; "gpu"; "serve"] false 1 false false)
  = active_saved_model_tags (mkConfig "" "" None ["gpu"; "serve"] false 1 false false).
Proof.
  assert (H : forall tag : string,
             tag ∈ ["serve"; "gpu"; "serve"] <-> tag ∈ ["gpu"; "serve"])
    by (intros tag; set_unfold; tauto).
  split; [exact H|].
  exact (proj2 (active_tags_are_a_nonempty_set
                  (mkConfig "" "" None ["serve"; "gpu"; "serve"] false 1 false false)
                  (mkConfig "" "" None ["gpu"; "serve"] false 1 false false)) H).
Defined.

End FactoryFurther.
